(** * api-template: the settings provider, the application assembly and the
      two route handlers, with the properties of their specification.

    The Python sources embedded here are
      - app/core/config.py    ([Settings], [get_settings]),
      - app/api/v1/router.py  ([health_check], [protected_route], [router]),
      - app/main.py           ([lifespan], the module body [main]),
      - tests/conftest.py     (the module body [conftest]).
    The program is a state-passing embedding: a [Process] holds the objects
    allocated so far, the cache of [get_settings], the environment the
    process runs in and what was printed. *)

From Stdlib Require Import ZArith String Ascii List Bool Lia.
From stdpp Require Import base option list gmap strings fin_maps.
Import ListNotations.

#[local] Set Warnings "-register-all".

Local Open Scope Z_scope.
Local Open Scope string_scope.
Local Open Scope list_scope.

(** ** Values *)

(** What a handler returns and a response body carries: Python values that
    serialise to JSON. A dict keeps its insertion order. *)
Inductive json : Type :=
| JNull
| JBool (b : bool)
| JInt (n : Z)
| JStr (s : string)
| JList (l : list json)
| JDict (d : list (string * json)).

(** [d.get(k)] / [k in d] on a dict value. *)
Fixpoint assoc {A : Type} (k : string) (d : list (string * A)) : option A :=
  match d with
  | [] => None
  | (k', v) :: d' => if String.eqb k' k then Some v else assoc k d'
  end.

Definition json_get (k : string) (v : json) : option json :=
  match v with
  | JDict d => assoc k d
  | _ => None
  end.

(** ** Header names

    HTTP header names compare without regard to case. *)
Definition lower_ascii (c : ascii) : ascii :=
  let n := nat_of_ascii c in
  if (Nat.leb 65 n && Nat.leb n 90)%bool then ascii_of_nat (n + 32) else c.

Fixpoint lower (s : string) : string :=
  match s with
  | EmptyString => EmptyString
  | String c t => String (lower_ascii c) (lower t)
  end.

Definition Headers : Type := list (string * string).

Fixpoint get_header (k : string) (h : Headers) : option string :=
  match h with
  | [] => None
  | (k', v) :: h' =>
      if String.eqb (lower k') (lower k) then Some v else get_header k h'
  end.

(** [headers[k] = v] on mutable headers: the first entry of that name is
    replaced, a new name is appended. *)
Fixpoint set_header (k v : string) (h : Headers) : Headers :=
  match h with
  | [] => [(k, v)]
  | (k', v') :: h' =>
      if String.eqb (lower k') (lower k) then (k', v) :: h'
      else (k', v') :: set_header k v h'
  end.

(** [headers.update(new)]. *)
Definition update_headers (new h : Headers) : Headers :=
  fold_left (fun acc kv => set_header (fst kv) (snd kv) acc) new h.

(** ** Requests, responses, exceptions *)

Record Request : Type := mkRequest {
  method : string;
  path : string;
  req_headers : Headers
}.

Inductive Body : Type :=
| JSONBody (v : json)
| TextBody (s : string)
| EmptyBody.

(** A response as the client sees it: status, the headers that the
    application, its exception handlers and its middleware set (the
    transport's own content-type and content-length are left out), body. *)
Record Response : Type := mkResponse {
  status_code : Z;
  headers : Headers;
  body : Body
}.

Inductive Exn : Type :=
| SettingsError (field : string)
| ValidationError (kind : string)
| HTTPException (status : Z) (detail : json) (hdrs : Headers)
| RuntimeError (msg : string).

(** ** app/core/config.py *)

Record Settings : Type := mkSettings {
  PROJECT_NAME : string;
  VERSION : string;
  DESCRIPTION : string;
  ALLOWED_ORIGINS : list string
}.

(** The declared type of a field: [str] or [List[str]]. *)
Inductive Annotation : Type := Str | ListStr.

Definition py_type (a : Annotation) : Type :=
  match a with
  | Str => string
  | ListStr => list string
  end.

Record FieldInfo : Type := mkField {
  field_name : string;
  annotation : Annotation;
  default : py_type annotation
}.

Definition F_PROJECT_NAME : FieldInfo := mkField "PROJECT_NAME" Str "FastAPI App".
Definition F_VERSION : FieldInfo := mkField "VERSION" Str "1.0.0".
Definition F_DESCRIPTION : FieldInfo :=
  mkField "DESCRIPTION" Str "FastAPI application with best practices".
Definition F_ALLOWED_ORIGINS : FieldInfo :=
  mkField "ALLOWED_ORIGINS" ListStr ["http://localhost:3000"].

Definition model_fields : list FieldInfo :=
  [F_PROJECT_NAME; F_VERSION; F_DESCRIPTION; F_ALLOWED_ORIGINS].

(** A field whose text is decoded as JSON: every type but the plain ones. *)
Definition is_complex (a : Annotation) : bool :=
  match a with
  | Str => false
  | ListStr => true
  end.

Definition complex_field (name : string) : bool :=
  existsb (fun f => String.eqb (field_name f) name && is_complex (annotation f))%bool
          model_fields.

(** The white space that [json.loads] skips around a value. *)
Definition is_json_space (c : ascii) : bool :=
  existsb (Nat.eqb (nat_of_ascii c)) [32; 9; 10; 13]%nat.

Fixpoint lstrip_space (s : string) : string :=
  match s with
  | EmptyString => EmptyString
  | String c t => if is_json_space c then lstrip_space t else s
  end.

Fixpoint rstrip_space (s : string) : string :=
  match s with
  | EmptyString => EmptyString
  | String c t =>
      match rstrip_space t with
      | EmptyString => if is_json_space c then EmptyString else String c EmptyString
      | t' => String c t'
      end
  end.

(** The text is JSON for [null]. *)
Definition is_json_null (raw : string) : bool :=
  String.eqb (rstrip_space (lstrip_space raw)) "null".

(** What one source (the variables of [os.environ], or the entries of the
    [.env] file) holds for a field: the text under exactly the field's name
    ([case_sensitive=True]). A complex field whose text decodes to [null]
    is left to the next source. *)
Definition held (name : string) (vars : gmap string string) : option string :=
  match vars !! name with
  | Some raw =>
      if (complex_field name && is_json_null raw)%bool then None else Some raw
  | None => None
  end.

(** An entry name of the [.env] file that a field accounts for: the name of
    a field, or a name that starts with the name of a complex field. *)
Definition claimed_by_field (name : string) : bool :=
  existsb (fun f => String.eqb (field_name f) name ||
                    (is_complex (annotation f) &&
                     String.prefix (field_name f) name))%bool
          model_fields.

(** An entry of the [.env] file that reaches the model as an extra input:
    it has a value and no field accounts for its name. *)
Definition extra_entry (kv : string * string) : bool :=
  (negb (String.eqb (snd kv) "") && negb (claimed_by_field (fst kv)))%bool.

Definition has_extra (vars : gmap string string) : bool :=
  existsb extra_entry (map_to_list vars).

(** One kind of event per thing the properties speak of: a [Settings()]
    construction attempt, and the body of an endpoint starting to run. *)
Inductive Event : Type :=
| EvSettingsInit
| EvEndpoint (name : string).

(** The process: [heap] holds the Settings objects by address, [cache] is
    the slot of [lru_cache] around [get_settings] (its only key is the empty
    argument tuple), [environ] is [os.environ], [dotenv] the content of the
    [.env] file (empty when there is none), [stdout] what was printed;
    [trace] records the events above and is read by no code. *)
Record Process : Type := mkProcess {
  heap : list Settings;
  cache : option nat;
  environ : gmap string string;
  dotenv : gmap string string;
  stdout : list string;
  trace : list Event
}.

(** Computations of the program: state passing with exceptions. *)
Definition M (A : Type) : Type := Process -> (A + Exn) * Process.

Definition ret {A : Type} (a : A) : M A := fun p => (inl a, p).

Definition raise {A : Type} (e : Exn) : M A := fun p => (inr e, p).

Definition bind {A B : Type} (m : M A) (k : A -> M B) : M B :=
  fun p =>
    match m p with
    | (inl a, p') => k a p'
    | (inr e, p') => (inr e, p')
    end.

Notation "x <- c ;; k" := (bind c (fun x => k))
  (at level 100, c at next level, right associativity).
Notation "c ;;; k" := (bind c (fun _ => k))
  (at level 100, right associativity).

Definition log (ev : Event) : M unit :=
  fun p => (inl tt, mkProcess (heap p) (cache p) (environ p) (dotenv p)
                              (stdout p) (trace p ++ [ev])).

Definition print (line : string) : M unit :=
  fun p => (inl tt, mkProcess (heap p) (cache p) (environ p) (dotenv p)
                              (stdout p ++ [line]) (trace p)).

(** A new object on the heap; its address is the result. *)
Definition alloc (s : Settings) : M nat :=
  fun p => (inl (length (heap p)),
            mkProcess (heap p ++ [s]) (cache p) (environ p) (dotenv p)
                      (stdout p) (trace p)).

(** [obj.FIELD]: an attribute read through the reference. *)
Definition getattr {A : Type} (a : nat) (field : Settings -> A) : M A :=
  fun p =>
    match heap p !! a with
    | Some s => (inl (field s), p)
    | None => (inr (RuntimeError "dangling reference"), p)
    end.

(** ** The framework's objects (FastAPI, Starlette) *)

(** An endpoint function as a route holds it.
    [Handler]: [async def name(): body].
    [HandlerDep]: [async def name(x = Depends(dep)): body x]; the framework
    resolves [dep] on the request before it calls the function.
    [Builtin]: a page the framework serves by itself. *)
Inductive Endpoint : Type :=
| Handler (name : string) (fn : M json)
| HandlerDep (name : string) (dep : Request -> M json) (fn : json -> M json)
| Builtin (name : string) (page : Response).

Record Route : Type := mkRoute {
  route_path : string;
  route_methods : list string;
  endpoint : Endpoint
}.

(** [APIRouter()]: the routes registered so far, in order. *)
Definition APIRouter : Type := list Route.

Definition APIRouter_new : APIRouter := [].

(** [@router.get(path)] applied to an endpoint function. *)
Definition router_get (pth : string) (e : Endpoint) (r : APIRouter) : APIRouter :=
  r ++ [mkRoute pth ["GET"] e].

(** The keyword arguments of [CORSMiddleware] that the program passes. *)
Record CORSMiddleware : Type := mkCORS {
  allow_origins : list string;
  allow_credentials : bool;
  allow_methods : list string;
  allow_headers : list string
}.

Inductive Middleware : Type :=
| MwCORS (options : CORSMiddleware).

(** The two halves of a lifespan context manager: before and after [yield]. *)
Record Lifespan : Type := mkLifespan {
  on_startup : M unit;
  on_shutdown : M unit
}.

Record FastAPI : Type := mkFastAPI {
  title : string;
  version : string;
  description : string;
  lifespan_of : Lifespan;
  user_middleware : list Middleware;
  routes : list Route
}.

(** [app.add_middleware(cls, **options)]: the newest is the outermost. *)
Definition add_middleware (mw : Middleware) (app : FastAPI) : FastAPI :=
  mkFastAPI (title app) (version app) (description app) (lifespan_of app)
            (mw :: user_middleware app) (routes app).

Definition with_prefix (prefix : string) (r : Route) : Route :=
  mkRoute (prefix ++ route_path r) (route_methods r) (endpoint r).

(** [app.include_router(router, prefix=prefix)]. *)
Definition include_router (router : APIRouter) (prefix : string) (app : FastAPI)
  : FastAPI :=
  mkFastAPI (title app) (version app) (description app) (lifespan_of app)
            (user_middleware app) (routes app ++ map (with_prefix prefix) router).

Definition JSONResponse (code : Z) (content : json) (h : Headers) : Response :=
  mkResponse code h (JSONBody content).

Definition PlainTextResponse (code : Z) (text : string) (h : Headers) : Response :=
  mkResponse code h (TextBody text).

(** *** Routing *)

Inductive Match : Type := NoMatch | PartialMatch | FullMatch.

(** One line feed. *)
Definition newline : string := String (ascii_of_nat 10) EmptyString.

(** [re.match("^" + re.escape(route) + "$", pth)] for a route without path
    parameters: the pattern's [$] stands at the end of the text or before a
    line feed that ends it, so the route's own path matches and so does that
    path followed by one line feed. *)
Definition path_matches (route pth : string) : bool :=
  (String.eqb route pth || String.eqb (route ++ newline) pth)%bool.

(** The path decides whether a route matches at all, the method between a
    full and a partial match. *)
Definition matches (r : Route) (m pth : string) : Match :=
  if path_matches (route_path r) pth then
    if existsb (String.eqb m) (route_methods r) then FullMatch else PartialMatch
  else NoMatch.

Definition is_full (x : Match) : bool :=
  match x with FullMatch => true | _ => false end.

Definition is_partial (x : Match) : bool :=
  match x with PartialMatch => true | _ => false end.

Definition is_some_match (x : Match) : bool :=
  match x with NoMatch => false | _ => true end.

(** [s.rstrip("/")]. *)
Fixpoint rstrip_slash (s : string) : string :=
  match s with
  | EmptyString => EmptyString
  | String c t =>
      match rstrip_slash t with
      | EmptyString => if Ascii.eqb c "/" then EmptyString else String c EmptyString
      | t' => String c t'
      end
  end.

Fixpoint ends_with_slash (s : string) : bool :=
  match s with
  | EmptyString => false
  | String c EmptyString => Ascii.eqb c "/"
  | String _ t => ends_with_slash t
  end.

(** The path tried for a redirect when no route matched. *)
Definition redirect_path (pth : string) : string :=
  if ends_with_slash pth then rstrip_slash pth else pth ++ "/".

(** The framework calls the endpoint function; a dependency is resolved
    first, and when it raises the function is not called. The value returned
    is sent as a JSON response with status 200. *)
Definition run_endpoint (e : Endpoint) (req : Request) : M Response :=
  match e with
  | Handler name fn =>
      log (EvEndpoint name) ;;;
      v <- fn ;;
      ret (JSONResponse 200 v [])
  | HandlerDep name dep fn =>
      x <- dep req ;;
      log (EvEndpoint name) ;;;
      v <- fn x ;;
      ret (JSONResponse 200 v [])
  | Builtin _ page => ret page
  end.

(** The route that serves a method and a path: the first full match. *)
Definition resolve (rs : list Route) (m pth : string) : option Route :=
  find (fun r => is_full (matches r m pth)) rs.

(** The router: the route that serves the request is run; else a partial
    match answers 405; else the path with its trailing slash toggled, if it
    matches a route, answers with a redirect (its location given as that
    path); else 404. *)
Definition router_call (rs : list Route) (req : Request) : M Response :=
  match resolve rs (method req) (path req) with
  | Some r => run_endpoint (endpoint r) req
  | None =>
      match find (fun r => is_partial (matches r (method req) (path req))) rs with
      | Some r =>
          raise (HTTPException 405 (JStr "Method Not Allowed")
                   [("Allow", String.concat ", " (route_methods r))])
      | None =>
          if (negb (String.eqb (path req) "/") &&
              existsb (fun r => is_some_match
                                  (matches r (method req) (redirect_path (path req))))
                      rs)%bool
          then ret (mkResponse 307 [("location", redirect_path (path req))] EmptyBody)
          else raise (HTTPException 404 (JStr "Not Found") [])
      end
  end.

(** The exception handlers around the router: an [HTTPException] becomes
    the JSON response [{"detail": detail}] with its status and headers. *)
Definition exception_middleware (m : M Response) : M Response :=
  fun p =>
    match m p with
    | (inr (HTTPException code detail h), p') =>
        (inl (JSONResponse code (JDict [("detail", detail)]) h), p')
    | r => r
    end.

(** The application below its middleware: exception handlers and router. *)
Definition routed (app : FastAPI) (req : Request) : M Response :=
  exception_middleware (router_call (routes app) req).

(** The outermost layer: any other exception is answered with 500. *)
Definition server_error_middleware (m : M Response) : M Response :=
  fun p =>
    match m p with
    | (inr _, p') => (inl (PlainTextResponse 500 "Internal Server Error" []), p')
    | r => r
    end.

(** *** CORS *)

Definition allow_all_origins (c : CORSMiddleware) : bool :=
  existsb (String.eqb "*") (allow_origins c).

Definition is_allowed_origin (c : CORSMiddleware) (origin : string) : bool :=
  (allow_all_origins c || existsb (String.eqb origin) (allow_origins c))%bool.

Definition simple_headers (c : CORSMiddleware) : Headers :=
  (if allow_all_origins c then [("Access-Control-Allow-Origin", "*")] else []) ++
  (if allow_credentials c then [("Access-Control-Allow-Credentials", "true")] else []).

Definition add_vary_origin (h : Headers) : Headers :=
  match get_header "Vary" h with
  | Some v => set_header "Vary" (v ++ ", Origin") h
  | None => set_header "Vary" "Origin" h
  end.

Definition allow_explicit_origin (origin : string) (h : Headers) : Headers :=
  add_vary_origin (set_header "Access-Control-Allow-Origin" origin h).

(** The headers of a response to a request that carries an [Origin]. *)
Definition simple_response (c : CORSMiddleware) (req : Request) (origin : string)
    (resp : Response) : Response :=
  let h := update_headers (simple_headers c) (headers resp) in
  let has_cookie :=
    match get_header "cookie" (req_headers req) with Some _ => true | None => false end in
  let h :=
    if (allow_all_origins c && has_cookie)%bool then allow_explicit_origin origin h
    else if (negb (allow_all_origins c) && is_allowed_origin c origin)%bool
         then allow_explicit_origin origin h
         else h in
  mkResponse (status_code resp) h (body resp).

(** ** Sample collaborators

    Instances of what the program takes from its libraries and from the
    resolver, for running the definitions on concrete inputs. *)

Definition sample_decode_list (raw : string) : option (list string) :=
  if String.eqb raw "[]" then Some [] else None.

Definition sample_preflight (c : CORSMiddleware) (req : Request) : Response :=
  PlainTextResponse 200 "OK" [].

Definition sample_docs_page (pth : string) : Response :=
  PlainTextResponse 200 pth [].

Definition sample_verify (credential : string) : json + json :=
  if String.eqb credential "Bearer fake_test_token"
  then inl (JDict [("username", JStr "test_user")])
  else inr (JStr "Could not validate credentials").

Definition sample_missing : json := JStr "Not authenticated".

(** A decoder that also knows the text of the wildcard list. *)
Definition sample_decode_wildcard (raw : string) : option (list string) :=
  if String.eqb raw "[*]" then Some ["*"] else sample_decode_list raw.

Definition sample_client_headers : Headers :=
  [("host", "testserver"); ("user-agent", "testclient")].

(** Evaluate the program on a concrete input. *)
Ltac run := vm_compute; reflexivity.

Section Program.

(** How pydantic-settings decodes the text of an environment value into a
    [List[str]]; [None] when the text does not decode. The decoder is the
    library's. *)
Variable decode_list : string -> option (list string).

(** The text of an environment value coerced into the declared type. A
    [str] field takes the text as it is. *)
Definition coerce (a : Annotation) (raw : string) : option (py_type a) :=
  match a with
  | Str => Some raw
  | ListStr => decode_list raw
  end.

(** Where a field's value comes from: what the environment holds for it,
    else what the [.env] file holds for it ([env_file=".env"]). *)
Definition source (name : string) (p : Process) : option string :=
  match held name (environ p) with
  | Some raw => Some raw
  | None => held name (dotenv p)
  end.

(** What one source makes of a field on its own: every source coerces the
    text it holds, whether or not another source overrides it, and raises
    when the text does not coerce. *)
Definition source_error (f : FieldInfo) (vars : gmap string string)
  : option Exn :=
  match held (field_name f) vars with
  | Some raw =>
      match coerce (annotation f) raw with
      | Some _ => None
      | None => Some (SettingsError (field_name f))
      end
  | None => None
  end.

(** The error of the first field that a source cannot read. *)
Definition first_error (vars : gmap string string) : option Exn :=
  fold_right (fun f later =>
                match source_error f vars with
                | Some e => Some e
                | None => later
                end) None model_fields.

Definition field_value (f : FieldInfo) (p : Process)
  : py_type (annotation f) + Exn :=
  match source (field_name f) p with
  | None => inl (default f)
  | Some raw =>
      match coerce (annotation f) raw with
      | Some v => inl v
      | None => inr (SettingsError (field_name f))
      end
  end.

(** The field values of [Settings()]. The environment is read, then the
    [.env] file; an extra input from the [.env] file is refused by the model
    ([BaseSettings] forbids extras, and the class does not change that);
    each field then takes the value of its first source, else its
    default. *)
Definition build_settings (p : Process) : Settings + Exn :=
  match first_error (environ p) with
  | Some e => inr e
  | None =>
  match first_error (dotenv p) with
  | Some e => inr e
  | None =>
  if has_extra (dotenv p) then inr (ValidationError "extra_forbidden") else
  match field_value F_PROJECT_NAME p with
  | inr e => inr e
  | inl pn =>
  match field_value F_VERSION p with
  | inr e => inr e
  | inl ver =>
  match field_value F_DESCRIPTION p with
  | inr e => inr e
  | inl descr =>
  match field_value F_ALLOWED_ORIGINS p with
  | inr e => inr e
  | inl origins => inl (mkSettings pn ver descr origins)
  end end end end
  end end.

(** [Settings()]: the constructor call. *)
Definition Settings_init : M nat :=
  log EvSettingsInit ;;;
  fun p =>
    match build_settings p with
    | inl s => alloc s p
    | inr e => (inr e, p)
    end.

(** [@lru_cache] on a function of no argument: a hit returns the cached
    reference without running the function, a miss runs it and stores the
    result; an exception stores nothing. *)
Definition lru_cache (f : M nat) : M nat :=
  fun p =>
    match cache p with
    | Some a => (inl a, p)
    | None =>
        match f p with
        | (inl a, p') =>
            (inl a, mkProcess (heap p') (Some a) (environ p') (dotenv p')
                              (stdout p') (trace p'))
        | (inr e, p') => (inr e, p')
        end
    end.

Definition get_settings : M nat := lru_cache Settings_init.

(** *** The CORS middleware around an application *)

(** Starlette's answer to a preflight request under the given options; the
    program configures it and never computes it. *)
Variable preflight_response : CORSMiddleware -> Request -> Response.

Definition cors_call (c : CORSMiddleware) (inner : Request -> M Response)
    (req : Request) : M Response :=
  match get_header "origin" (req_headers req) with
  | None => inner req
  | Some origin =>
      if (String.eqb (method req) "OPTIONS" &&
          match get_header "access-control-request-method" (req_headers req) with
          | Some _ => true
          | None => false
          end)%bool
      then ret (preflight_response c req)
      else
        resp <- inner req ;;
        ret (simple_response c req origin resp)
  end.

Definition wrap (mw : Middleware) (inner : Request -> M Response)
  : Request -> M Response :=
  match mw with
  | MwCORS c => cors_call c inner
  end.

(** One request through the application: the server-error layer, the user
    middleware from the outermost in, the exception handlers, the router. *)
Definition app_call (app : FastAPI) (req : Request) : M Response :=
  server_error_middleware
    (fold_right wrap (routed app) (user_middleware app) req).

(** The pages FastAPI serves by itself: the OpenAPI schema and its two
    documentation front ends. Their content is the framework's. *)
Variable docs_page : string -> Response.

Definition docs_route (pth : string) : Route :=
  mkRoute pth ["GET"; "HEAD"] (Builtin pth (docs_page pth)).

(** [FastAPI(title=.., version=.., description=.., lifespan=..)]. *)
Definition FastAPI_new (t v d : string) (l : Lifespan) : FastAPI :=
  mkFastAPI t v d l []
    [docs_route "/openapi.json"; docs_route "/docs";
     docs_route "/docs/oauth2-redirect"; docs_route "/redoc"].

(** ** app/utils/dependencies.py *)

(** The resolver's verification of a presented credential: the identity of
    the user, or the detail of the failure. The spec leaves the algorithm
    to the collaborator. *)
Variable verify_credential : string -> json + json.

(** The detail reported when no credential is presented. *)
Variable missing_credential : json.

(** The collaborator's contract in the spec: on success it yields a user
    identity, which is a value and not [None]. *)
Hypothesis verify_yields_identity :
  forall credential user, verify_credential credential = inl user -> user <> JNull.

(** Modelled from the spec: the authentication error of the current-user
    resolver, whose module app/utils/dependencies.py is not among the
    sources (router.py imports it). The spec: a 401 response with a
    [WWW-Authenticate: Bearer] challenge header. *)
Definition authentication_error (detail : json) : Exn :=
  HTTPException 401 detail [("WWW-Authenticate", "Bearer")].

(** Modelled from the spec: the current-user resolver [get_current_user] of
    app/utils/dependencies.py, which is not among the sources. The spec:
    given the request credentials, produce a user identity or fail with an
    authentication error, for a missing credential as for an invalid one. *)
Definition get_current_user (req : Request) : M json :=
  match get_header "Authorization" (req_headers req) with
  | None => raise (authentication_error missing_credential)
  | Some credential =>
      match verify_credential credential with
      | inl user => ret user
      | inr detail => raise (authentication_error detail)
      end
  end.

(** ** app/api/v1/router.py *)

Definition health_check : M json :=
  ret (JDict [("status", JStr "healthy")]).

Definition protected_route (current_user : json) : M json :=
  ret (JDict [("message", JStr "This is a protected route");
              ("user", current_user)]).

Definition router : APIRouter :=
  router_get "/protected" (HandlerDep "protected_route" get_current_user protected_route)
    (router_get "/health" (Handler "health_check" health_check)
       APIRouter_new).

(** ** app/main.py *)

Definition lifespan : Lifespan :=
  mkLifespan (print "Starting up...") (print "Shutting down...").

(** The module body, run when the module is imported. [settings] is the
    reference that [get_settings()] returned; each [settings.FIELD] reads
    through it. *)
Definition main : M FastAPI :=
  settings <- get_settings ;;
  t <- getattr settings PROJECT_NAME ;;
  v <- getattr settings VERSION ;;
  d <- getattr settings DESCRIPTION ;;
  let app := FastAPI_new t v d lifespan in
  origins <- getattr settings ALLOWED_ORIGINS ;;
  let app := add_middleware (MwCORS (mkCORS origins true ["*"] ["*"])) app in
  ret (include_router router "/api/v1" app).

(** ** tests/conftest.py *)

(** The module body: importing [app] from app.main runs [main]; then the
    module calls [get_settings()] itself. *)
Definition conftest : M (FastAPI * nat) :=
  app <- main ;;
  settings <- get_settings ;;
  ret (app, settings).

(** ** The running process *)

(** What happens in the process once the application is assembled. The
    last one is not the program's doing: the environment or the [.env] file
    changes under the running process. *)
Inductive Op : Type :=
| OpGetSettings
| OpStartup
| OpRequest (req : Request)
| OpShutdown
| OpEnvChange (env file : gmap string string).

Definition exec (app : FastAPI) (o : Op) (p : Process) : Process :=
  match o with
  | OpGetSettings => snd (get_settings p)
  | OpStartup => snd (on_startup (lifespan_of app) p)
  | OpRequest req => snd (app_call app req p)
  | OpShutdown => snd (on_shutdown (lifespan_of app) p)
  | OpEnvChange env file =>
      mkProcess (heap p) (cache p) env file (stdout p) (trace p)
  end.

Definition exec_all (app : FastAPI) (ops : list Op) (p : Process) : Process :=
  fold_left (fun q o => exec app o q) ops p.

(** A process that has run nothing yet. *)
Definition fresh (env file : gmap string string) : Process :=
  mkProcess [] None env file [] [].

(** ** Vocabulary of the properties *)

(** The application that [main] assembles from the field values [s]. *)
Definition assembled (s : Settings) : FastAPI :=
  include_router router "/api/v1"
    (add_middleware (MwCORS (mkCORS (ALLOWED_ORIGINS s) true ["*"] ["*"]))
       (FastAPI_new (PROJECT_NAME s) (VERSION s) (DESCRIPTION s) lifespan)).

(** Two states that differ at most in the recorded events: the same
    objects, cache, environment and output. *)
Definition same_store (p q : Process) : Prop :=
  heap q = heap p /\ cache q = cache p /\ environ q = environ p /\
  dotenv q = dotenv p /\ stdout q = stdout p.

(** A computation that leaves the store as it found it. *)
Definition quiet {A : Type} (m : M A) : Prop :=
  forall p, same_store p (snd (m p)).

(** [os.environ[name] = value], from outside the program. *)
Definition setenv (name value : string) (p : Process) : Process :=
  mkProcess (heap p) (cache p) (<[name := value]> (environ p)) (dotenv p)
            (stdout p) (trace p).

(** The environment and the [.env] file replaced, from outside the
    program. *)
Definition with_sources (env file : gmap string string) (p : Process) : Process :=
  mkProcess (heap p) (cache p) env file (stdout p) (trace p).

(** A source gives for ALLOWED_ORIGINS a text, other than JSON null, that
    does not decode to a list. *)
Definition undecodable_origins (vars : gmap string string) : Prop :=
  exists raw, vars !! "ALLOWED_ORIGINS" = Some raw /\
              is_json_null raw = false /\ decode_list raw = None.

(** The [.env] file has an entry that no field claims. *)
Definition unclaimed_entry (vars : gmap string string) : Prop :=
  exists name value, vars !! name = Some value /\ value <> "" /\
                     claimed_by_field name = false.

(** Some route's pattern lets the path pass. *)
Definition served_path (rs : list Route) (pth : string) : bool :=
  existsb (fun r => path_matches (route_path r) pth) rs.

(** The [Settings] value with every field at its declared default. *)
Definition default_settings : Settings :=
  mkSettings (default F_PROJECT_NAME) (default F_VERSION)
             (default F_DESCRIPTION) (default F_ALLOWED_ORIGINS).

(** The name of the endpoint function behind a route. *)
Definition endpoint_name (r : Route) : string :=
  match endpoint r with
  | Handler n _ => n
  | HandlerDep n _ _ => n
  | Builtin n _ => n
  end.

(** What identifies a route: path, methods and endpoint function. *)
Definition route_key (r : Route) : string * list string * string :=
  (route_path r, route_methods r, endpoint_name r).

(** The header names the CORS middleware writes. *)
Definition cors_header (k : string) : bool :=
  existsb (String.eqb (lower k))
    ["access-control-allow-origin"; "access-control-allow-credentials"; "vary"].

(** [resp'] is [resp] up to the headers the CORS middleware writes. *)
Definition cors_variant (resp resp' : Response) : Prop :=
  status_code resp' = status_code resp /\
  body resp' = body resp /\
  forall k, cors_header k = false ->
            get_header k (headers resp') = get_header k (headers resp).

(** A route whose endpoint leaves the store as it found it. *)
Definition quiet_route (r : Route) : Prop :=
  forall req, quiet (run_endpoint (endpoint r) req).

(** How many times [Settings()] was attempted. *)
Definition init_count (tr : list Event) : nat :=
  length (List.filter (fun ev => match ev with
                            | EvSettingsInit => true
                            | EvEndpoint _ => false
                            end) tr).

(** ** Further vocabulary *)

(** A CORS preflight request: OPTIONS with an [Origin] and an
    [Access-Control-Request-Method] header. *)
Definition is_preflight (req : Request) : bool :=
  match get_header "origin" (req_headers req) with
  | None => false
  | Some _ =>
      (String.eqb (method req) "OPTIONS" &&
       match get_header "access-control-request-method" (req_headers req) with
       | Some _ => true
       | None => false
       end)%bool
  end.

(** A computation whose result does not depend on the state it runs in. *)
Definition stateless {A : Type} (m : M A) : Prop :=
  forall p q, fst (m p) = fst (m q).

Definition stateless_route (r : Route) : Prop :=
  forall req, stateless (run_endpoint (endpoint r) req).

(** The state after the event of endpoint function [name] running. *)
Definition entered (name : string) (p : Process) : Process :=
  snd (log (EvEndpoint name) p).

(** Does the resolver's verification accept the credential? *)
Definition accepts (credential : string) : bool :=
  match verify_credential credential with
  | inl _ => true
  | inr _ => false
  end.

(** ** tests/conftest.py, the fixtures *)

(** The headers the test client sends by itself (host, user agent and the
    like). *)
Variable testclient_headers : Headers.

(** A response that the test client follows: a redirect status with a
    location. *)
Definition redirect_target (resp : Response) : option string :=
  if existsb (Z.eqb (status_code resp)) [301; 302; 303; 307; 308]
  then get_header "location" (headers resp)
  else None.

(** [client.get(path, headers=hs)]: the request carries the client's
    headers overridden by [hs]; redirects are followed, at most [fuel] of
    them. *)
Fixpoint client_get_from (fuel : nat) (app : FastAPI) (pth : string)
    (hs : Headers) : M Response :=
  resp <- app_call app (mkRequest "GET" pth (update_headers hs testclient_headers)) ;;
  match redirect_target resp with
  | None => ret resp
  | Some target =>
      match fuel with
      | O => raise (RuntimeError "too many redirects")
      | S fuel' => client_get_from fuel' app target hs
      end
  end.

Definition client_get (app : FastAPI) (pth : string) (hs : Headers) : M Response :=
  client_get_from 20 app pth hs.

(** The fixture [client]: [with TestClient(app) as test_client: yield
    test_client]. The lifespan starts, the test runs with the client, and
    the lifespan ends whether the test returned or raised. *)
Definition client {A : Type} (app : FastAPI)
    (test : (string -> Headers -> M Response) -> M A) : M A :=
  on_startup (lifespan_of app) ;;;
  fun p =>
    match test (client_get app) p with
    | (r, q) =>
        match on_shutdown (lifespan_of app) q with
        | (inl _, q') => (r, q')
        | (inr e, q') => (inr e, q')
        end
    end.

Definition test_user : json :=
  JDict [("username", JStr "test_user"); ("email", JStr "test@example.com");
         ("is_active", JBool true); ("is_superuser", JBool false)].

Definition token_headers (test_user : json) : Headers :=
  [("Authorization", "Bearer fake_test_token")].

Definition unauthorized_token_headers : Headers :=
  [("Authorization", "Bearer invalid_token")].

(** ** tests/test_api/test_v1/test_endpoints.py

    A test is the conjunction of its assertions: [true] when all hold. *)

(** [response.json()]: the body when it is JSON. *)
Definition response_json (resp : Response) : option json :=
  match body resp with
  | JSONBody v => Some v
  | _ => None
  end.

Fixpoint is_substring (k s : string) : bool :=
  (String.prefix k s ||
   match s with
   | EmptyString => false
   | String _ t => is_substring k t
   end)%bool.

(** [k in v] for a string [k]: a key of a dict, an element of a list, a
    part of a string; any other [v] raises, which fails the assertion. *)
Definition py_in (k : string) (v : json) : bool :=
  match v with
  | JDict d => match assoc k d with Some _ => true | None => false end
  | JList l => existsb (fun x => match x with
                                 | JStr s => String.eqb s k
                                 | _ => false
                                 end) l
  | JStr s => is_substring k s
  | _ => false
  end.

(** [v == {k: s}] against a dict of one entry with a string value. *)
Definition eq_singleton (v : json) (k s : string) : bool :=
  match v with
  | JDict [(k', JStr s')] => (String.eqb k' k && String.eqb s' s)%bool
  | _ => false
  end.

(** [v[k] == s] for strings [k] and [s]; a missing key raises. *)
Definition item_is (v : json) (k s : string) : bool :=
  match json_get k v with
  | Some (JStr s') => String.eqb s' s
  | _ => false
  end.

Definition test_health_check (get : string -> Headers -> M Response) : M bool :=
  response <- get "/api/v1/health" [] ;;
  ret (Z.eqb (status_code response) 200 &&
       match response_json response with
       | Some v => eq_singleton v "status" "healthy"
       | None => false
       end)%bool.

Definition test_protected_route_without_token
    (get : string -> Headers -> M Response) : M bool :=
  response <- get "/api/v1/protected" [] ;;
  ret (Z.eqb (status_code response) 401 &&
       match response_json response with
       | Some v => py_in "detail" v
       | None => false
       end &&
       match get_header "WWW-Authenticate" (headers response) with
       | Some v => String.eqb v "Bearer"
       | None => false
       end)%bool.

Definition test_protected_route_with_valid_token
    (get : string -> Headers -> M Response) (token_headers : Headers) : M bool :=
  response <- get "/api/v1/protected" token_headers ;;
  ret (Z.eqb (status_code response) 200 &&
       match response_json response with
       | Some v => (item_is v "message" "This is a protected route" &&
                    py_in "user" v)%bool
       | None => false
       end)%bool.

Definition test_protected_route_with_invalid_token
    (get : string -> Headers -> M Response)
    (unauthorized_token_headers : Headers) : M bool :=
  response <- get "/api/v1/protected" unauthorized_token_headers ;;
  ret (Z.eqb (status_code response) 401 &&
       match response_json response with
       | Some v => py_in "detail" v
       | None => false
       end)%bool.

(** The four tests in the order of the file, each with fixtures of its
    own. *)
Definition pytest (app : FastAPI) : M (list bool) :=
  t1 <- client app test_health_check ;;
  t2 <- client app test_protected_route_without_token ;;
  t3 <- client app (fun get =>
          test_protected_route_with_valid_token get (token_headers test_user)) ;;
  t4 <- client app (fun get =>
          test_protected_route_with_invalid_token get unauthorized_token_headers) ;;
  ret [t1; t2; t3; t4].

(** A test body that makes the given calls of [client.get] in turn. *)
Fixpoint get_all (get : string -> Headers -> M Response)
    (calls : list (string * Headers)) : M (list Response) :=
  match calls with
  | [] => ret []
  | (pth, hs) :: rest =>
      resp <- get pth hs ;;
      resps <- get_all get rest ;;
      ret (resp :: resps)
  end.

(** The paths a route's pattern lets pass: the route's path, and that path
    followed by one line feed (the pattern is compiled to a regular
    expression that ends in [$], which also matches before a final line
    feed). *)
Definition at_path (route pth : string) : Prop :=
  pth = route \/ pth = (route ++ newline)%string.

(** What handling a request did to the trace: nothing, or the event of
    the one endpoint function that ran, which for [protected_route] needs
    the resolver to have accepted the request. *)
Definition trace_step (req : Request) (p q : Process) : Prop :=
  trace q = trace p \/
  (trace q = trace p ++ [EvEndpoint "health_check"] /\
   method req = "GET" /\ at_path "/api/v1/health" (path req)) \/
  (trace q = trace p ++ [EvEndpoint "protected_route"] /\
   method req = "GET" /\ at_path "/api/v1/protected" (path req) /\
   exists u, get_current_user req p = (inl u, p)).

(** * Properties *)

(** ** The store *)

Lemma same_store_refl p : same_store p p.
Proof. repeat split. Qed.

Lemma same_store_trans p q r :
  same_store p q -> same_store q r -> same_store p r.
Proof.
  unfold same_store. intros (H1 & H2 & H3 & H4 & H5) (K1 & K2 & K3 & K4 & K5).
  repeat split; congruence.
Qed.

Lemma quiet_ret {A : Type} (a : A) : quiet (ret a).
Proof. intros p. apply same_store_refl. Qed.

Lemma quiet_raise {A : Type} (e : Exn) : quiet (@raise A e).
Proof. intros p. apply same_store_refl. Qed.

Lemma quiet_log ev : quiet (log ev).
Proof. intros p. repeat split. Qed.

Lemma quiet_bind {A B : Type} (m : M A) (k : A -> M B) :
  quiet m -> (forall a, quiet (k a)) -> quiet (bind m k).
Proof.
  intros Hm Hk p. unfold bind. specialize (Hm p).
  destruct (m p) as [[a | e] q]; simpl in *; [| exact Hm].
  eapply same_store_trans; [exact Hm | apply Hk].
Qed.

Create HintDb quiet.

#[local] Hint Resolve quiet_ret quiet_raise quiet_log quiet_bind : quiet.

(** ** Settings *)

(** The field values depend on the environment and the [.env] file only. *)
Lemma build_settings_env p q :
  environ q = environ p -> dotenv q = dotenv p ->
  build_settings q = build_settings p.
Proof.
  intros He Hd. unfold build_settings, field_value, source.
  now rewrite He, Hd.
Qed.

Ltac settings_unchanged p :=
  match goal with
  | |- context [build_settings ?q] =>
      lazymatch q with
      | p => fail
      | _ => rewrite (build_settings_env p q) by reflexivity
      end
  end.

Lemma get_settings_hit p a : cache p = Some a -> get_settings p = (inl a, p).
Proof. intros H. unfold get_settings, lru_cache. now rewrite H. Qed.

Lemma get_settings_miss p s :
  cache p = None -> build_settings p = inl s ->
  get_settings p =
    (inl (length (heap p)),
     mkProcess (heap p ++ [s]) (Some (length (heap p))) (environ p) (dotenv p)
               (stdout p) (trace p ++ [EvSettingsInit])).
Proof.
  intros Hc Hb. unfold get_settings, lru_cache, Settings_init, bind, log.
  rewrite Hc. settings_unchanged p. now rewrite Hb.
Qed.

Lemma get_settings_fail p e :
  cache p = None -> build_settings p = inr e ->
  get_settings p =
    (inr e,
     mkProcess (heap p) None (environ p) (dotenv p) (stdout p)
               (trace p ++ [EvSettingsInit])).
Proof.
  intros Hc Hb. unfold get_settings, lru_cache, Settings_init, bind, log.
  rewrite Hc. settings_unchanged p. now rewrite Hb.
Qed.

(** Whatever [get_settings] returns is the cached reference to an object of
    the heap, and an object that was there before is still the same. *)
Lemma get_settings_ok p a q :
  get_settings p = (inl a, q) ->
  cache q = Some a /\
  (cache p = Some a /\ q = p \/
   cache p = None /\ exists s, build_settings p = inl s /\ heap q !! a = Some s) /\
  (forall b s, heap p !! b = Some s -> heap q !! b = Some s).
Proof.
  intros H. destruct (cache p) as [c |] eqn:Hc.
  - rewrite (get_settings_hit p c Hc) in H. inversion H; subst. auto.
  - destruct (build_settings p) as [s | e] eqn:Hb.
    + rewrite (get_settings_miss p s Hc Hb) in H. inversion H; subst; simpl.
      split; [reflexivity |]. split.
      * right. split; [reflexivity |]. exists s. split; [reflexivity |].
        apply list_lookup_middle. reflexivity.
      * intros b s' Hb'. now apply lookup_app_l_Some.
    + rewrite (get_settings_fail p e Hc Hb) in H. discriminate.
Qed.

Lemma getattr_ok {A : Type} p a s (field : Settings -> A) :
  heap p !! a = Some s -> getattr a field p = (inl (field s), p).
Proof. intros H. unfold getattr. now rewrite H. Qed.

Lemma getattr_dangling {A : Type} p a (field : Settings -> A) :
  heap p !! a = None ->
  getattr a field p = (inr (RuntimeError "dangling reference"), p).
Proof. intros H. unfold getattr. now rewrite H. Qed.

(** What a successful run of the module body of app/main.py leaves: the
    cached object, and the application assembled from its field values. *)
Lemma main_ok p app q :
  main p = (inl app, q) ->
  exists a s,
    get_settings p = (inl a, q) /\ cache q = Some a /\ heap q !! a = Some s /\
    app = assembled s.
Proof.
  unfold main, bind. intros H.
  destruct (get_settings p) as [[a | e] q'] eqn:Hg; [| discriminate].
  destruct (heap q' !! a) as [s |] eqn:Hs.
  2: { rewrite (getattr_dangling _ _ _ Hs) in H. discriminate. }
  rewrite !(getattr_ok _ _ _ _ Hs) in H. inversion H; subst.
  destruct (get_settings_ok _ _ _ Hg) as (Hc & _ & _).
  exists a, s. repeat split; try assumption; reflexivity.
Qed.

(** With values that coerce, the module body of app/main.py assembles the
    application. *)
Lemma main_starts p s :
  cache p = None -> build_settings p = inl s ->
  main p = (inl (assembled s), snd (get_settings p)).
Proof.
  intros Hc Hb. unfold main, bind. rewrite (get_settings_miss p s Hc Hb).
  rewrite !(getattr_ok _ (length (heap p)) s)
    by (simpl; apply list_lookup_middle; reflexivity).
  reflexivity.
Qed.

(** ** Handling a request leaves the store alone *)

Lemma quiet_get_current_user req : quiet (get_current_user req).
Proof.
  unfold get_current_user.
  destruct (get_header _ _); [destruct (verify_credential _) |]; auto with quiet.
Qed.

Lemma quiet_health_check : quiet health_check.
Proof. apply quiet_ret. Qed.

Lemma quiet_protected_route u : quiet (protected_route u).
Proof. apply quiet_ret. Qed.

#[local] Hint Resolve quiet_get_current_user quiet_health_check
  quiet_protected_route : quiet.

Lemma assembled_routes_quiet s : Forall quiet_route (routes (assembled s)).
Proof.
  simpl.
  repeat (apply List.Forall_cons; [intros req; simpl; auto 10 with quiet |]).
  apply List.Forall_nil.
Qed.

Lemma quiet_router_call rs req :
  Forall quiet_route rs -> quiet (router_call rs req).
Proof.
  intros Hrs. unfold router_call, resolve.
  destruct (find _ rs) as [r |] eqn:Hf.
  - apply find_some in Hf. destruct Hf as [Hin _].
    rewrite Forall_forall in Hrs. apply Hrs. now apply list_elem_of_In.
  - clear Hf. destruct (find _ rs); [apply quiet_raise |].
    destruct (_ && _)%bool; [apply quiet_ret | apply quiet_raise].
Qed.

Lemma quiet_exception_middleware m : quiet m -> quiet (exception_middleware m).
Proof.
  intros H p. unfold exception_middleware. specialize (H p).
  destruct (m p) as [[r | [f | k | c d h | msg]] q]; exact H.
Qed.

Lemma quiet_server_error_middleware m :
  quiet m -> quiet (server_error_middleware m).
Proof.
  intros H p. unfold server_error_middleware. specialize (H p).
  destruct (m p) as [[r | e] q]; exact H.
Qed.

Lemma quiet_cors_call c inner req :
  (forall r, quiet (inner r)) -> quiet (cors_call c inner req).
Proof.
  intros H. unfold cors_call.
  destruct (get_header _ _); [| apply H].
  destruct (_ && _)%bool; auto with quiet.
Qed.

Lemma quiet_app_call s req : quiet (app_call (assembled s) req).
Proof.
  unfold app_call. apply quiet_server_error_middleware. simpl.
  apply quiet_cors_call. intros r. apply quiet_exception_middleware.
  apply quiet_router_call. apply (assembled_routes_quiet s).
Qed.

(** Once the cache is filled, nothing that happens in the process touches
    the heap or the cache. *)
Lemma exec_keeps s o p a :
  cache p = Some a ->
  heap (exec (assembled s) o p) = heap p /\
  cache (exec (assembled s) o p) = cache p.
Proof.
  intros Hc. destruct o as [| | req | | env file]; simpl.
  - rewrite (get_settings_hit p a Hc). auto.
  - auto.
  - destruct (quiet_app_call s req p) as (H1 & H2 & _). auto.
  - auto.
  - auto.
Qed.

Lemma exec_all_keeps s ops : forall p a,
  cache p = Some a ->
  heap (exec_all (assembled s) ops p) = heap p /\
  cache (exec_all (assembled s) ops p) = Some a.
Proof.
  unfold exec_all.
  induction ops as [| o ops IH]; intros p a Hc; simpl; [auto |].
  destruct (exec_keeps s o p a Hc) as [Hh Hc'].
  rewrite Hc in Hc'. destruct (IH _ _ Hc') as [IH1 IH2].
  split; congruence.
Qed.

(** ** Headers *)

Lemma get_header_set_other k k' v h :
  String.eqb (lower k') (lower k) = false ->
  get_header k (set_header k' v h) = get_header k h.
Proof.
  intros Hne. induction h as [| [e w] h IH]; simpl.
  - now rewrite Hne.
  - destruct (String.eqb (lower e) (lower k')) eqn:He; simpl.
    + apply String.eqb_eq in He. rewrite He, Hne. reflexivity.
    + now rewrite IH.
Qed.

Lemma cors_header_false k :
  cors_header k = false ->
  String.eqb (lower "Access-Control-Allow-Origin") (lower k) = false /\
  String.eqb (lower "Access-Control-Allow-Credentials") (lower k) = false /\
  String.eqb (lower "Vary") (lower k) = false.
Proof.
  unfold cors_header. simpl. rewrite !orb_false_iff.
  intros (H1 & H2 & H3 & _).
  rewrite String.eqb_sym in H1. rewrite String.eqb_sym in H2.
  rewrite String.eqb_sym in H3. auto.
Qed.

Lemma allow_explicit_origin_other k origin h :
  cors_header k = false ->
  get_header k (allow_explicit_origin origin h) = get_header k h.
Proof.
  intros Hk. destruct (cors_header_false k Hk) as (H1 & H2 & H3).
  unfold allow_explicit_origin, add_vary_origin.
  destruct (get_header "Vary" _); now rewrite !get_header_set_other.
Qed.

Lemma simple_response_variant c req origin resp :
  cors_variant resp (simple_response c req origin resp).
Proof.
  unfold cors_variant, simple_response. simpl.
  split; [reflexivity |]. split; [reflexivity |].
  intros k Hk. destruct (cors_header_false k Hk) as (H1 & H2 & H3).
  assert (Hu : get_header k (update_headers (simple_headers c) (headers resp))
               = get_header k (headers resp)).
  { unfold update_headers, simple_headers.
    destruct (allow_all_origins c), (allow_credentials c); simpl;
      now rewrite ?get_header_set_other. }
  destruct (_ && _)%bool; [now rewrite allow_explicit_origin_other |].
  destruct (_ && _)%bool; [now rewrite allow_explicit_origin_other |].
  exact Hu.
Qed.

Lemma cors_variant_refl resp : cors_variant resp resp.
Proof. repeat split. Qed.

(** ** A GET request through the middleware *)

Lemma cors_call_get c inner req p resp q :
  method req = "GET" ->
  inner req p = (inl resp, q) ->
  exists resp',
    cors_call c inner req p = (inl resp', q) /\ cors_variant resp resp'.
Proof.
  intros Hm Hi. unfold cors_call.
  destruct (get_header "origin" _) as [origin |].
  - rewrite Hm. simpl. unfold bind. rewrite Hi.
    eexists. split; [reflexivity | apply simple_response_variant].
  - exists resp. split; [exact Hi | apply cors_variant_refl].
Qed.

Lemma app_call_assembled s req :
  app_call (assembled s) req =
    server_error_middleware
      (cors_call (mkCORS (ALLOWED_ORIGINS s) true ["*"] ["*"])
                 (routed (assembled s)) req).
Proof. reflexivity. Qed.

Lemma app_call_get s req p resp q :
  routed (assembled s) req p = (inl resp, q) ->
  method req = "GET" ->
  exists resp',
    app_call (assembled s) req p = (inl resp', q) /\ cors_variant resp resp'.
Proof.
  intros Hr Hm.
  destruct (cors_call_get
              (mkCORS (ALLOWED_ORIGINS s) true ["*"] ["*"])
              (routed (assembled s)) req p resp q Hm Hr) as (resp' & Hc & Hv).
  exists resp'. split; [| exact Hv].
  rewrite app_call_assembled. unfold server_error_middleware. now rewrite Hc.
Qed.

(** ** Routing *)

Lemma routed_health s h p :
  routed (assembled s) (mkRequest "GET" "/api/v1/health" h) p =
    (inl (JSONResponse 200 (JDict [("status", JStr "healthy")]) []),
     snd (log (EvEndpoint "health_check") p)).
Proof. reflexivity. Qed.

Lemma routed_protected s h p :
  routed (assembled s) (mkRequest "GET" "/api/v1/protected" h) p =
    exception_middleware
      (run_endpoint
         (HandlerDep "protected_route" get_current_user protected_route)
         (mkRequest "GET" "/api/v1/protected" h)) p.
Proof. reflexivity. Qed.

Lemma init_count_app tr tr' :
  init_count (tr ++ tr') = (init_count tr + init_count tr')%nat.
Proof. unfold init_count. now rewrite List.filter_app, length_app. Qed.

Lemma str_field_value f p :
  annotation f = Str -> exists v, field_value f p = inl v.
Proof.
  destruct f as [n a d]. simpl. intros ->. unfold field_value. simpl.
  destruct (source n p); eauto.
Qed.

(** Only the list field can stop a source: a text field takes any text. *)
Lemma first_error_origins vars :
  first_error vars = source_error F_ALLOWED_ORIGINS vars.
Proof.
  unfold first_error, source_error. simpl.
  destruct (held "PROJECT_NAME" vars), (held "VERSION" vars),
    (held "DESCRIPTION" vars), (held "ALLOWED_ORIGINS" vars) as [r |];
    try destruct (decode_list r); reflexivity.
Qed.

Lemma held_empty name : held name ∅ = None.
Proof. unfold held. now rewrite lookup_empty. Qed.

Lemma has_extra_empty : has_extra ∅ = false.
Proof. unfold has_extra. now rewrite map_to_list_empty. Qed.

Lemma held_insert_ne name k v vars :
  k <> name -> held name (<[k := v]> vars) = held name vars.
Proof. intros H. unfold held. now rewrite lookup_insert_ne. Qed.

(** The list field's source is the environment when that holds a text for
    it, else the [.env] file. *)
Lemma source_origins_fails p raw :
  source "ALLOWED_ORIGINS" p = Some raw ->
  decode_list raw = None ->
  build_settings p = inr (SettingsError "ALLOWED_ORIGINS").
Proof.
  intros Hsrc Hdec. unfold build_settings. rewrite !first_error_origins.
  unfold source_error, source in *. simpl.
  destruct (held "ALLOWED_ORIGINS" (environ p)) as [r |].
  - inversion Hsrc; subst r. now rewrite Hdec.
  - now rewrite Hsrc, Hdec.
Qed.

(** The resolver fails only with the authentication error, and it leaves
    the process as it found it. *)
Lemma get_current_user_fails req p e q :
  get_current_user req p = (inr e, q) ->
  q = p /\ exists detail, e = authentication_error detail.
Proof.
  unfold get_current_user, raise, ret.
  destruct (get_header _ _) as [c |]; [destruct (verify_credential c) |];
    intros H; inversion H; subst; eauto.
Qed.

Lemma get_current_user_succeeds req p u q :
  get_current_user req p = (inl u, q) -> q = p /\ u <> JNull.
Proof.
  unfold get_current_user, raise, ret.
  destruct (get_header _ _) as [c |]; [| discriminate].
  destruct (verify_credential c) as [u' | d] eqn:Hv; intros H; inversion H; subst.
  split; [reflexivity | eapply verify_yields_identity; eassumption].
Qed.

Lemma get_current_user_missing req p :
  get_header "Authorization" (req_headers req) = None ->
  get_current_user req p = (inr (authentication_error missing_credential), p).
Proof. intros H. unfold get_current_user. now rewrite H. Qed.

(** The paths a route's pattern lets pass. *)
Lemma path_matches_iff route pth :
  path_matches route pth = true <->
  pth = route \/ pth = (route ++ newline)%string.
Proof.
  unfold path_matches. rewrite orb_true_iff, !String.eqb_eq.
  split; intros [H | H]; auto.
Qed.

(** A request is served by a route of the list, at a path that the route's
    pattern lets pass and under one of its methods. *)
Lemma resolve_some rs m pth r :
  resolve rs m pth = Some r ->
  In r rs /\ path_matches (route_path r) pth = true /\ In m (route_methods r).
Proof.
  unfold resolve. intros H. apply find_some in H. destruct H as [Hin Hfull].
  split; [exact Hin |]. unfold matches in Hfull.
  destruct (path_matches (route_path r) pth); [| discriminate].
  split; [reflexivity |].
  destruct (existsb _ _) eqn:He; [| discriminate].
  apply existsb_exists in He. destruct He as (x & Hx & Hmx).
  apply String.eqb_eq in Hmx. now subst x.
Qed.

(** ** What a request runs *)

(** The resolver leaves the process as it found it. *)
Lemma get_current_user_pure req p r q :
  get_current_user req p = (r, q) -> q = p.
Proof.
  unfold get_current_user, raise, ret.
  destruct (get_header _ _) as [c |]; [destruct (verify_credential c) |];
    intros H; now inversion H.
Qed.

Lemma entered_same_store name p : same_store p (entered name p).
Proof. repeat split. Qed.

(** The application below its middleware answers every request, and the
    trace tells which endpoint function ran. *)
Lemma routed_cases s req p :
  exists resp q,
    routed (assembled s) req p = (inl resp, q) /\
    same_store p q /\ trace_step req p q.
Proof.
  unfold routed, router_call.
  destruct (resolve (routes (assembled s)) (method req) (path req))
    as [r |] eqn:Hr.
  - destruct (resolve_some _ _ _ _ Hr) as (Hin & Hpath & Hmeth).
    simpl in Hin.
    destruct Hin as [<- | [<- | [<- | [<- | [<- | [<- | []]]]]]].
    1-4: (eexists; exists p; split; [reflexivity |];
          split; [apply same_store_refl | left; reflexivity]).
    + apply path_matches_iff in Hpath.
      simpl in Hpath, Hmeth. destruct Hmeth as [Hm | []].
      eexists. exists (entered "health_check" p).
      split; [reflexivity |]. split; [apply entered_same_store |].
      right. left. auto.
    + apply path_matches_iff in Hpath.
      simpl in Hpath, Hmeth. destruct Hmeth as [Hm | []].
      simpl endpoint. unfold exception_middleware, run_endpoint, bind.
      destruct (get_current_user req p) as [[u | e] q0] eqn:Hu.
      * pose proof (get_current_user_pure _ _ _ _ Hu) as ->.
        eexists. exists (entered "protected_route" p).
        split; [reflexivity |]. split; [apply entered_same_store |].
        right. right. eauto 6.
      * destruct (get_current_user_fails _ _ _ _ Hu) as (-> & d & ->).
        eexists. exists p. split; [reflexivity |].
        split; [apply same_store_refl | left; reflexivity].
  - destruct (find _ _) as [r |].
    + eexists. exists p. split; [reflexivity |].
      split; [apply same_store_refl | left; reflexivity].
    + destruct (_ && _)%bool;
        (eexists; exists p; split; [reflexivity |];
         split; [apply same_store_refl | left; reflexivity]).
Qed.

(** A preflight request is answered by the middleware; any other request
    gets the router's answer up to the CORS headers. *)
Lemma app_call_cases s req p :
  (is_preflight req = true /\
   app_call (assembled s) req p =
     (inl (preflight_response (mkCORS (ALLOWED_ORIGINS s) true ["*"] ["*"]) req), p)) \/
  (is_preflight req = false /\
   exists resp0 resp q,
     routed (assembled s) req p = (inl resp0, q) /\
     app_call (assembled s) req p = (inl resp, q) /\
     cors_variant resp0 resp /\
     (get_header "origin" (req_headers req) = None -> resp = resp0) /\
     (forall origin, get_header "origin" (req_headers req) = Some origin ->
        resp = simple_response (mkCORS (ALLOWED_ORIGINS s) true ["*"] ["*"])
                 req origin resp0) /\
     same_store p q /\ trace_step req p q).
Proof.
  rewrite app_call_assembled.
  unfold server_error_middleware, cors_call, is_preflight.
  destruct (routed_cases s req p) as (resp0 & q & Hr & Hs & Ht).
  destruct (get_header "origin" (req_headers req)) as [origin |].
  - destruct (_ && _)%bool.
    + left. split; reflexivity.
    + right. split; [reflexivity |]. unfold bind. rewrite Hr.
      exists resp0. eexists. exists q.
      split; [reflexivity |]. split; [reflexivity |].
      split; [apply simple_response_variant |].
      split; [discriminate |].
      split; [| auto]. intros o Ho. now inversion Ho.
  - right. split; [reflexivity |]. rewrite Hr.
    exists resp0, resp0, q.
    split; [reflexivity |]. split; [reflexivity |].
    split; [apply cors_variant_refl |].
    split; [reflexivity |]. split; [discriminate | auto].
Qed.

(** A GET at a path that the pattern of a mounted route lets pass runs the
    route's endpoint. *)
Lemma routed_health_at s req p :
  method req = "GET" -> at_path "/api/v1/health" (path req) ->
  routed (assembled s) req p =
    (inl (JSONResponse 200 (JDict [("status", JStr "healthy")]) []),
     entered "health_check" p).
Proof.
  destruct req as [m pth h]. simpl. intros -> [-> | ->]; reflexivity.
Qed.

Lemma routed_protected_at s req p :
  method req = "GET" -> at_path "/api/v1/protected" (path req) ->
  routed (assembled s) req p =
    exception_middleware
      (run_endpoint
         (HandlerDep "protected_route" get_current_user protected_route)
         req) p.
Proof.
  destruct req as [m pth h]. simpl. intros -> [-> | ->]; reflexivity.
Qed.

Lemma trace_grows_ne (tr : list Event) ev : tr ++ [ev] <> tr.
Proof.
  intros H. apply (f_equal (@length Event)) in H.
  rewrite length_app in H. simpl in H. lia.
Qed.

(** Which endpoint function a request runs, read off the trace. *)
Lemma app_call_runs s req p :
  exists resp q,
    app_call (assembled s) req p = (inl resp, q) /\
    (trace q = trace p ++ [EvEndpoint "health_check"] <->
     method req = "GET" /\ at_path "/api/v1/health" (path req)) /\
    (trace q = trace p ++ [EvEndpoint "protected_route"] <->
     method req = "GET" /\ at_path "/api/v1/protected" (path req) /\
     exists u, get_current_user req p = (inl u, p)).
Proof.
  destruct (app_call_cases s req p)
    as [(_ & Hc) | (_ & r0 & resp & q & _ & Hc & _ & _ & _ & _ & Ht)].
  - eexists. exists p. split; [exact Hc |].
    split; split.
    + intros H. symmetry in H. now apply trace_grows_ne in H.
    + intros [Hm Hp].
      destruct (app_call_get s req p _ _ (routed_health_at s req p Hm Hp) Hm)
        as (resp' & Hc' & _).
      rewrite Hc in Hc'.
      exact (f_equal (fun x => trace (snd x)) Hc').
    + intros H. symmetry in H. now apply trace_grows_ne in H.
    + intros (Hm & Hp & u & Hu).
      assert (Hr : routed (assembled s) req p =
                   (inl (JSONResponse 200
                           (JDict [("message", JStr "This is a protected route");
                                   ("user", u)]) []),
                    entered "protected_route" p)).
      { rewrite (routed_protected_at s req p Hm Hp).
        unfold exception_middleware, run_endpoint, bind. now rewrite Hu. }
      destruct (app_call_get s req p _ _ Hr Hm) as (resp' & Hc' & _).
      rewrite Hc in Hc'.
      exact (f_equal (fun x => trace (snd x)) Hc').
  - exists resp, q. split; [exact Hc |].
    split; split.
    + intros H. destruct Ht as [Ht | [(Ht & Hm & Hp) | (Ht & _)]].
      * rewrite Ht in H. symmetry in H. now apply trace_grows_ne in H.
      * auto.
      * rewrite Ht in H. apply app_inv_head in H. discriminate H.
    + intros [Hm Hp].
      destruct (app_call_get s req p _ _ (routed_health_at s req p Hm Hp) Hm)
        as (resp' & Hc' & _).
      rewrite Hc in Hc'.
      exact (f_equal (fun x => trace (snd x)) Hc').
    + intros H. destruct Ht as [Ht | [(Ht & _) | (Ht & Hm & Hp & Hu)]].
      * rewrite Ht in H. symmetry in H. now apply trace_grows_ne in H.
      * rewrite Ht in H. apply app_inv_head in H. discriminate H.
      * auto.
    + intros (Hm & Hp & u & Hu).
      assert (Hr : routed (assembled s) req p =
                   (inl (JSONResponse 200
                           (JDict [("message", JStr "This is a protected route");
                                   ("user", u)]) []),
                    entered "protected_route" p)).
      { rewrite (routed_protected_at s req p Hm Hp).
        unfold exception_middleware, run_endpoint, bind. now rewrite Hu. }
      destruct (app_call_get s req p _ _ Hr Hm) as (resp' & Hc' & _).
      rewrite Hc in Hc'.
      exact (f_equal (fun x => trace (snd x)) Hc').
Qed.

(** * The claims *)

(** C1. A GET request to /api/v1/protected that sends no Authorization
    header, or for which the current-user resolver fails, is answered with
    status 401, a body that is a dict with the field [detail], and the
    header [WWW-Authenticate: Bearer]; the body of [protected_route] does
    not run: the request leaves the process, and with it the trace of
    endpoint events, as it was. *)
Theorem protected_rejects_unauthenticated p0 app p1 req p :
  main p0 = (inl app, p1) ->
  method req = "GET" -> path req = "/api/v1/protected" ->
  (get_header "Authorization" (req_headers req) = None \/
   exists e q0, get_current_user req p = (inr e, q0)) ->
  exists resp q detail,
    app_call app req p = (inl resp, q) /\
    status_code resp = 401 /\
    body resp = JSONBody (JDict [("detail", detail)]) /\
    get_header "WWW-Authenticate" (headers resp) = Some "Bearer" /\
    q = p /\ trace q = trace p.
Proof.
  intros Hmain Hm Hp Hfail.
  destruct (main_ok _ _ _ Hmain) as (a & s & _ & _ & _ & ->).
  assert (Hres : exists detail,
             get_current_user req p = (inr (authentication_error detail), p)).
  { destruct Hfail as [Hnone | (e & q0 & He)].
    - exists missing_credential. now apply get_current_user_missing.
    - destruct (get_current_user_fails _ _ _ _ He) as (-> & d & ->). eauto. }
  destruct Hres as (detail & Hres).
  destruct req as [m pth h]. simpl in Hm, Hp. subst m pth.
  assert (Hr : routed (assembled s) (mkRequest "GET" "/api/v1/protected" h) p =
               (inl (JSONResponse 401 (JDict [("detail", detail)])
                       [("WWW-Authenticate", "Bearer")]), p)).
  { rewrite routed_protected. unfold exception_middleware, run_endpoint, bind.
    rewrite Hres. reflexivity. }
  destruct (app_call_get s _ p _ p Hr eq_refl) as (resp & Hcall & Hs & Hb & Hh).
  exists resp, p, detail. repeat split; try assumption.
  now rewrite Hh.
Qed.

(** C2. Every GET request to /api/v1/health, whatever headers it carries and
    in whatever state the process is, is answered with status 200 and the
    body [{"status": "healthy"}]; the store is left as it was, the call does
    not fail, and [health_check] itself takes no request and returns that
    dict from any state. *)
Theorem health_always_healthy p0 app p1 req p :
  main p0 = (inl app, p1) ->
  method req = "GET" -> path req = "/api/v1/health" ->
  exists resp q,
    app_call app req p = (inl resp, q) /\
    status_code resp = 200 /\
    body resp = JSONBody (JDict [("status", JStr "healthy")]) /\
    same_store p q /\
    forall p', health_check p' = (inl (JDict [("status", JStr "healthy")]), p').
Proof.
  intros Hmain Hm Hp.
  destruct (main_ok _ _ _ Hmain) as (a & s & _ & _ & _ & ->).
  destruct req as [m pth h]. simpl in Hm, Hp. subst m pth.
  destruct (app_call_get s _ p _ _ (routed_health s h p) eq_refl)
    as (resp & Hcall & Hs & Hb & _).
  exists resp, (snd (log (EvEndpoint "health_check") p)).
  repeat split; assumption || reflexivity.
Qed.

(** C3. A GET request to /api/v1/protected for which the current-user
    resolver yields the identity [u] is answered with status 200 and the
    body [{"message": "This is a protected route", "user": u}]: the
    [user] field is present, equal to [u], and not null; the trace gains the
    event of [protected_route] running. *)
Theorem protected_echoes_user p0 app p1 req p u q0 :
  main p0 = (inl app, p1) ->
  method req = "GET" -> path req = "/api/v1/protected" ->
  get_current_user req p = (inl u, q0) ->
  exists resp q,
    app_call app req p = (inl resp, q) /\
    status_code resp = 200 /\
    body resp = JSONBody (JDict [("message", JStr "This is a protected route");
                                 ("user", u)]) /\
    json_get "message" (JDict [("message", JStr "This is a protected route");
                               ("user", u)])
      = Some (JStr "This is a protected route") /\
    json_get "user" (JDict [("message", JStr "This is a protected route");
                            ("user", u)]) = Some u /\
    u <> JNull /\
    trace q = trace p ++ [EvEndpoint "protected_route"].
Proof.
  intros Hmain Hm Hp Hu.
  destruct (main_ok _ _ _ Hmain) as (a & s & _ & _ & _ & ->).
  destruct (get_current_user_succeeds _ _ _ _ Hu) as (-> & Hnn).
  destruct req as [m pth h]. simpl in Hm, Hp. subst m pth.
  assert (Hr : routed (assembled s) (mkRequest "GET" "/api/v1/protected" h) p =
               (inl (JSONResponse 200
                       (JDict [("message", JStr "This is a protected route");
                               ("user", u)]) []),
                snd (log (EvEndpoint "protected_route") p))).
  { rewrite routed_protected. unfold exception_middleware, run_endpoint, bind.
    rewrite Hu. reflexivity. }
  destruct (app_call_get s _ p _ _ Hr eq_refl) as (resp & Hcall & Hs & Hb & _).
  exists resp, (snd (log (EvEndpoint "protected_route") p)).
  repeat split; assumption || reflexivity.
Qed.

(** C4. [get_settings] is memoized for the process: the first call, on an
    empty cache, constructs a new object [a] from the environment and caches
    it, and the program's two calls (in app/main.py and tests/conftest.py)
    get that one reference; after that, whatever happens in the process (further calls, the
    lifespan, requests, changes of the environment), a call returns the same
    reference [a], constructs nothing, changes nothing, and [a] still holds
    the object constructed first. *)
Theorem get_settings_memoized p0 a p1 :
  cache p0 = None ->
  get_settings p0 = (inl a, p1) ->
  (exists s, build_settings p0 = inl s /\ heap p0 !! a = None /\
             heap p1 !! a = Some s /\ cache p1 = Some a /\
             conftest p0 = (inl (assembled s, a), p1)) /\
  forall s' ops,
    get_settings (exec_all (assembled s') ops p1)
      = (inl a, exec_all (assembled s') ops p1) /\
    heap (exec_all (assembled s') ops p1) !! a = heap p1 !! a.
Proof.
  intros Hc Hg.
  destruct (build_settings p0) as [s | e] eqn:Hb.
  2: { rewrite (get_settings_fail p0 e Hc Hb) in Hg. discriminate. }
  pose proof (main_starts p0 s Hc Hb) as Hm. rewrite Hg in Hm. simpl in Hm.
  rewrite (get_settings_miss p0 s Hc Hb) in Hg. inversion Hg; subst; clear Hg.
  split.
  - exists s. split; [reflexivity |]. split; [apply lookup_ge_None_2; lia |].
    split; [simpl; apply list_lookup_middle; reflexivity |].
    split; [reflexivity |].
    unfold conftest, bind. rewrite Hm. reflexivity.
  - intros s' ops.
    match goal with |- context [exec_all _ ops ?p] =>
      destruct (exec_all_keeps s' ops p (length (heap p0)) eq_refl) as [Hh Hk]
    end.
    split; [now apply get_settings_hit | now rewrite Hh].
Qed.

(** C5, as amended. When neither the environment nor the [.env] file holds
    a text for a field under the field's exact name, and the [.env] file has
    no entry that no field claims, [Settings()] constructs the object with
    PROJECT_NAME "FastAPI App", VERSION "1.0.0", DESCRIPTION "FastAPI
    application with best practices" and ALLOWED_ORIGINS
    ["http://localhost:3000"]. Names are matched exactly: an environment
    variable whose name is not, character for character, the name of a
    field changes nothing. *)
Theorem settings_defaults p :
  (forall f, In f model_fields -> source (field_name f) p = None) ->
  has_extra (dotenv p) = false ->
  build_settings p =
    inl (mkSettings "FastAPI App" "1.0.0"
           "FastAPI application with best practices" ["http://localhost:3000"]) /\
  (exists a q, Settings_init p = (inl a, q) /\ heap q !! a = Some default_settings) /\
  forall name value,
    (forall f, In f model_fields -> field_name f <> name) ->
    build_settings (setenv name value p) = build_settings p.
Proof.
  intros Hnone Hfile.
  assert (Hb : build_settings p = inl default_settings).
  { pose proof (Hnone F_ALLOWED_ORIGINS) as Ho. simpl in Ho.
    unfold source in Ho.
    unfold build_settings. rewrite !first_error_origins, Hfile.
    unfold source_error. simpl.
    destruct (held "ALLOWED_ORIGINS" (environ p)) as [r |];
      [discriminate Ho; simpl; auto 6 |].
    rewrite Ho by (simpl; auto 6).
    unfold field_value. rewrite !Hnone by (simpl; auto 6). reflexivity. }
  split; [exact Hb |]. split.
  - exists (length (heap p)). eexists.
    unfold Settings_init, bind, log. settings_unchanged p. rewrite Hb.
    split; [reflexivity |]. simpl. apply list_lookup_middle. reflexivity.
  - intros name value Hname.
    assert (Hne : forall f, In f model_fields -> name <> field_name f).
    { intros f Hf Heq. now apply (Hname f Hf). }
    unfold build_settings. rewrite !first_error_origins.
    unfold source_error, field_value, source, setenv. simpl.
    rewrite (held_insert_ne "PROJECT_NAME" name)
      by (apply (Hne F_PROJECT_NAME); simpl; auto 6).
    rewrite (held_insert_ne "VERSION" name)
      by (apply (Hne F_VERSION); simpl; auto 6).
    rewrite (held_insert_ne "DESCRIPTION" name)
      by (apply (Hne F_DESCRIPTION); simpl; auto 6).
    rewrite (held_insert_ne "ALLOWED_ORIGINS" name)
      by (apply (Hne F_ALLOWED_ORIGINS); simpl; auto 6).
    reflexivity.
Qed.

(** C6. If the value that the environment or the [.env] file gives for a
    field does not coerce into the field's declared type, the first
    [get_settings()] raises a configuration error naming the field, and so
    do the module bodies of app/main.py and tests/conftest.py: no
    application is assembled, no Settings object is allocated or cached, and
    the construction was attempted exactly once. *)
Theorem settings_error_is_fatal p f raw :
  cache p = None ->
  In f model_fields ->
  source (field_name f) p = Some raw ->
  coerce (annotation f) raw = None ->
  exists q,
    get_settings p = (inr (SettingsError (field_name f)), q) /\
    main p = (inr (SettingsError (field_name f)), q) /\
    conftest p = (inr (SettingsError (field_name f)), q) /\
    heap q = heap p /\ cache q = None /\
    init_count (trace q) = S (init_count (trace p)).
Proof.
  intros Hc Hin Hsrc Hco.
  assert (Hf : f = F_ALLOWED_ORIGINS).
  { simpl in Hin. destruct Hin as [<- | [<- | [<- | [<- | []]]]];
      try discriminate Hco. reflexivity. }
  subst f.
  assert (Hb : build_settings p = inr (SettingsError "ALLOWED_ORIGINS")).
  { exact (source_origins_fails p raw Hsrc Hco). }
  pose proof (get_settings_fail p _ Hc Hb) as Hg.
  assert (Hm : main p = (inr (SettingsError "ALLOWED_ORIGINS"),
                         snd (get_settings p))).
  { unfold main, bind. now rewrite Hg. }
  rewrite Hg in Hm. simpl in Hm.
  eexists. split; [exact Hg |]. split; [exact Hm |]. split.
  - unfold conftest, bind. now rewrite Hm.
  - simpl. split; [reflexivity |]. split; [reflexivity |].
    rewrite init_count_app. unfold init_count at 2. simpl. lia.
Qed.

(** C7. The assembled application has exactly one middleware, the CORS
    policy whose allowed origins are the ALLOWED_ORIGINS of the cached
    Settings object, with credentials allowed and ["*"] for the methods and
    for the headers; every request, whatever its route, passes through that
    one policy. *)
Theorem cors_policy_from_settings p0 app p1 :
  main p0 = (inl app, p1) ->
  exists a s,
    cache p1 = Some a /\ heap p1 !! a = Some s /\
    user_middleware app =
      [MwCORS (mkCORS (ALLOWED_ORIGINS s) true ["*"] ["*"])] /\
    forall req,
      app_call app req =
        server_error_middleware
          (cors_call (mkCORS (ALLOWED_ORIGINS s) true ["*"] ["*"])
                     (routed app) req).
Proof.
  intros Hmain.
  destruct (main_ok _ _ _ Hmain) as (a & s & _ & Hc & Hs & ->).
  exists a, s. repeat split; assumption.
Qed.

(** C8. The Settings object is not mutated after its construction: the
    module body of app/main.py changes no object that existed before it,
    the application it assembles carries the field values of the cached
    object, and after any sequence of happenings in the process the heap is
    the same, the cache holds the same reference, and every attribute read
    through it gives the value fixed at construction. *)
Theorem settings_immutable p0 app p1 :
  main p0 = (inl app, p1) ->
  exists a s,
    cache p1 = Some a /\ heap p1 !! a = Some s /\
    (cache p0 = None -> build_settings p0 = inl s) /\
    (forall b s0, heap p0 !! b = Some s0 -> heap p1 !! b = Some s0) /\
    title app = PROJECT_NAME s /\ version app = VERSION s /\
    description app = DESCRIPTION s /\
    user_middleware app =
      [MwCORS (mkCORS (ALLOWED_ORIGINS s) true ["*"] ["*"])] /\
    forall ops,
      heap (exec_all app ops p1) = heap p1 /\
      cache (exec_all app ops p1) = Some a /\
      forall (A : Type) (field : Settings -> A),
        getattr a field (exec_all app ops p1)
          = (inl (field s), exec_all app ops p1).
Proof.
  intros Hmain.
  destruct (main_ok _ _ _ Hmain) as (a & s & Hg & Hc & Hs & ->).
  destruct (get_settings_ok _ _ _ Hg) as (_ & Hfirst & Hold).
  exists a, s. split; [exact Hc |]. split; [exact Hs |]. split.
  { intros Hnone. destruct Hfirst as [[Hsome _] | (_ & s' & Hb & Hs')];
      congruence. }
  split; [exact Hold |].
  do 4 (split; [reflexivity |]).
  intros ops. destruct (exec_all_keeps s ops p1 a Hc) as [Hh Hk].
  split; [exact Hh |]. split; [exact Hk |].
  intros A field. apply getattr_ok. now rewrite Hh.
Qed.

(** C9, as amended. The route group registers two routes and no other, GET
    /health for [health_check] and GET /protected for [protected_route]; the
    application mounts them under /api/v1 behind the framework's own pages.
    A request is routed to [health_check] exactly when it is a GET of
    /api/v1/health or of that path followed by one line feed, to
    [protected_route] exactly when it is a GET of /api/v1/protected or of
    that path followed by one line feed.  The application as a whole answers
    every request; it runs [health_check] exactly for those requests, and
    [protected_route] exactly for those of its requests that the resolver
    accepts. *)
Theorem routes_mounted_under_prefix p0 app p1 :
  main p0 = (inl app, p1) ->
  map route_key router =
    [("/health", ["GET"], "health_check");
     ("/protected", ["GET"], "protected_route")] /\
  map route_key (routes app) =
    [("/openapi.json", ["GET"; "HEAD"], "/openapi.json");
     ("/docs", ["GET"; "HEAD"], "/docs");
     ("/docs/oauth2-redirect", ["GET"; "HEAD"], "/docs/oauth2-redirect");
     ("/redoc", ["GET"; "HEAD"], "/redoc");
     ("/api/v1/health", ["GET"], "health_check");
     ("/api/v1/protected", ["GET"], "protected_route")] /\
  (forall m pth,
    (endpoint_name <$> resolve (routes app) m pth = Some "health_check"
     <-> m = "GET" /\
         (pth = "/api/v1/health" \/
          pth = ("/api/v1/health" ++ newline)%string)) /\
    (endpoint_name <$> resolve (routes app) m pth = Some "protected_route"
     <-> m = "GET" /\
         (pth = "/api/v1/protected" \/
          pth = ("/api/v1/protected" ++ newline)%string))) /\
  forall req p,
    exists resp q,
      app_call app req p = (inl resp, q) /\
      (trace q = trace p ++ [EvEndpoint "health_check"] <->
       method req = "GET" /\
       (path req = "/api/v1/health" \/
        path req = ("/api/v1/health" ++ newline)%string)) /\
      (trace q = trace p ++ [EvEndpoint "protected_route"] <->
       method req = "GET" /\
       (path req = "/api/v1/protected" \/
        path req = ("/api/v1/protected" ++ newline)%string) /\
       exists u, get_current_user req p = (inl u, p)).
Proof.
  intros Hmain.
  destruct (main_ok _ _ _ Hmain) as (a & s & _ & _ & _ & ->).
  split; [reflexivity |]. split; [reflexivity |].
  split; [| intros req p; exact (app_call_runs s req p)].
  intros m pth. split; split.
  - intros H. destruct (resolve _ m pth) as [r |] eqn:Hr; [| discriminate H].
    destruct (resolve_some _ _ _ _ Hr) as (Hin & Hpath & Hmeth).
    apply path_matches_iff in Hpath. simpl in Hin.
    destruct Hin as [<- | [<- | [<- | [<- | [<- | [<- | []]]]]]];
      simpl in H; try discriminate H.
    simpl in Hpath, Hmeth. intuition.
  - intros [-> [-> | ->]]; reflexivity.
  - intros H. destruct (resolve _ m pth) as [r |] eqn:Hr; [| discriminate H].
    destruct (resolve_some _ _ _ _ Hr) as (Hin & Hpath & Hmeth).
    apply path_matches_iff in Hpath. simpl in Hin.
    destruct Hin as [<- | [<- | [<- | [<- | [<- | [<- | []]]]]]];
      simpl in H; try discriminate H.
    simpl in Hpath, Hmeth. intuition.
  - intros [-> [-> | ->]]; reflexivity.
Qed.

(** C10. The health check does not depend on the configuration or on the
    request: in any two runs of the program, under whatever environments
    they started and in whatever state they are, two GET requests to
    /api/v1/health with whatever headers get the same body,
    [{"status": "healthy"}]. *)
Theorem health_noninterference p0 app p1 req p p0' app' p1' req' p' :
  main p0 = (inl app, p1) ->
  main p0' = (inl app', p1') ->
  method req = "GET" -> path req = "/api/v1/health" ->
  method req' = "GET" -> path req' = "/api/v1/health" ->
  exists resp q resp' q',
    app_call app req p = (inl resp, q) /\
    app_call app' req' p' = (inl resp', q') /\
    body resp = body resp' /\
    body resp = JSONBody (JDict [("status", JStr "healthy")]).
Proof.
  intros Hmain Hmain' Hm Hp Hm' Hp'.
  destruct (main_ok _ _ _ Hmain) as (a & s & _ & _ & _ & ->).
  destruct (main_ok _ _ _ Hmain') as (a' & s' & _ & _ & _ & ->).
  destruct req as [m pth h]. destruct req' as [m' pth' h'].
  simpl in Hm, Hp, Hm', Hp'. subst.
  destruct (app_call_get s _ p _ _ (routed_health s h p) eq_refl)
    as (resp & Hcall & _ & Hb & _).
  destruct (app_call_get s' _ p' _ _ (routed_health s' h' p') eq_refl)
    as (resp' & Hcall' & _ & Hb' & _).
  eexists resp, _, resp', _.
  split; [exact Hcall |]. split; [exact Hcall' |].
  split; [now rewrite Hb, Hb' | exact Hb].
Qed.

(** * Further properties *)

(** ** Every request, whatever its method and path *)

(** X1. Whatever the method, the path and the headers of a request, the
    application answers it, changes nothing in the process but the trace,
    and runs at most one endpoint function; the body of [protected_route]
    runs only for a GET of /api/v1/protected that the resolver accepted. *)
Theorem protected_route_needs_authentication p0 app p1 req p :
  main p0 = (inl app, p1) ->
  exists resp q,
    app_call app req p = (inl resp, q) /\
    same_store p q /\ trace_step req p q.
Proof.
  intros Hmain.
  destruct (main_ok _ _ _ Hmain) as (a & s & _ & _ & _ & ->).
  destruct (app_call_cases s req p)
    as [(_ & Hc) | (_ & r0 & resp & q & _ & Hc & _ & _ & _ & Hs & Ht)].
  - eexists. exists p. split; [exact Hc |].
    split; [apply same_store_refl | left; reflexivity].
  - exists resp, q. auto.
Qed.

(** ** Answers do not depend on the state *)

Lemma stateless_ret {A : Type} (a : A) : stateless (ret a).
Proof. intros p q. reflexivity. Qed.

Lemma stateless_raise {A : Type} (e : Exn) : stateless (@raise A e).
Proof. intros p q. reflexivity. Qed.

Lemma stateless_log ev : stateless (log ev).
Proof. intros p q. reflexivity. Qed.

Lemma stateless_bind {A B : Type} (m : M A) (k : A -> M B) :
  stateless m -> (forall a, stateless (k a)) -> stateless (bind m k).
Proof.
  intros Hm Hk p q. unfold bind. specialize (Hm p q).
  destruct (m p) as [[a | e] p'], (m q) as [[a' | e'] q']; simpl in Hm;
    inversion Hm; subst; [apply Hk | reflexivity].
Qed.

Lemma stateless_get_current_user req : stateless (get_current_user req).
Proof.
  unfold get_current_user.
  destruct (get_header _ _); [destruct (verify_credential _) |];
    auto using stateless_ret, stateless_raise.
Qed.

Ltac stateless_steps :=
  repeat first
    [ apply stateless_ret | apply stateless_raise | apply stateless_log
    | apply stateless_get_current_user
    | apply stateless_bind; [| intros ?] ].

Lemma assembled_routes_stateless s :
  Forall stateless_route (routes (assembled s)).
Proof.
  simpl.
  repeat (apply List.Forall_cons;
          [intros req; cbn [endpoint docs_route with_prefix run_endpoint];
           stateless_steps |]).
  apply List.Forall_nil.
Qed.

Lemma stateless_router_call rs req :
  Forall stateless_route rs -> stateless (router_call rs req).
Proof.
  intros Hrs. unfold router_call, resolve.
  destruct (find _ rs) as [r |] eqn:Hf.
  - apply find_some in Hf. destruct Hf as [Hin _].
    rewrite Forall_forall in Hrs. apply Hrs. now apply list_elem_of_In.
  - clear Hf. destruct (find _ rs); [apply stateless_raise |].
    destruct (_ && _)%bool; [apply stateless_ret | apply stateless_raise].
Qed.

Lemma stateless_exception_middleware m :
  stateless m -> stateless (exception_middleware m).
Proof.
  intros H p q. unfold exception_middleware. specialize (H p q).
  destruct (m p) as [[r | e] p'], (m q) as [[r' | e'] q']; simpl in H;
    inversion H; subst; [reflexivity |].
  destruct e'; reflexivity.
Qed.

Lemma stateless_server_error_middleware m :
  stateless m -> stateless (server_error_middleware m).
Proof.
  intros H p q. unfold server_error_middleware. specialize (H p q).
  destruct (m p) as [[r | e] p'], (m q) as [[r' | e'] q']; simpl in H;
    inversion H; subst; reflexivity.
Qed.

Lemma stateless_cors_call c inner req :
  (forall r, stateless (inner r)) -> stateless (cors_call c inner req).
Proof.
  intros H. unfold cors_call.
  destruct (get_header _ _); [| apply H].
  destruct (_ && _)%bool; [apply stateless_ret |].
  apply stateless_bind; [apply H | intros a; apply stateless_ret].
Qed.

Lemma stateless_app_call s req : stateless (app_call (assembled s) req).
Proof.
  rewrite app_call_assembled. apply stateless_server_error_middleware.
  apply stateless_cors_call. intros r. apply stateless_exception_middleware.
  apply stateless_router_call. apply (assembled_routes_stateless s).
Qed.

(** X2. The answer to a request is the same in every state of the process:
    it depends on nothing that earlier requests, later calls of
    [get_settings], the lifespan or a change of the environment leave
    behind. *)
Theorem answers_do_not_depend_on_state p0 app p1 req p q :
  main p0 = (inl app, p1) ->
  fst (app_call app req p) = fst (app_call app req q) /\
  forall ops,
    fst (app_call app req (exec_all app ops p)) = fst (app_call app req p).
Proof.
  intros Hmain.
  destruct (main_ok _ _ _ Hmain) as (a & s & _ & _ & _ & ->).
  split; [apply stateless_app_call |]. intros ops. apply stateless_app_call.
Qed.

(** ** The lifespan around a test *)

Lemma quiet_client_get_from s fuel : forall pth hs,
  quiet (client_get_from fuel (assembled s) pth hs).
Proof.
  induction fuel as [| fuel IH]; intros pth hs; simpl;
    (apply quiet_bind; [apply quiet_app_call |]);
    intros resp; destruct (redirect_target resp); auto with quiet.
Qed.

Lemma quiet_get_all get calls :
  (forall pth hs, quiet (get pth hs)) -> quiet (get_all get calls).
Proof.
  intros Hget. induction calls as [| [pth hs] rest IH]; simpl;
    auto 6 with quiet.
Qed.

(** The fixture prints the two lines of the lifespan around a test that
    leaves the store alone, whatever the test returns or raises. *)
Lemma client_brackets {A : Type} s (test : (string -> Headers -> M Response) -> M A) p :
  quiet (test (client_get (assembled s))) ->
  stdout (snd (client (assembled s) test p))
    = stdout p ++ ["Starting up..."; "Shutting down..."] /\
  heap (snd (client (assembled s) test p)) = heap p /\
  cache (snd (client (assembled s) test p)) = cache p.
Proof.
  intros Hq. unfold client, bind. simpl.
  match goal with |- context [test _ ?p1] =>
    specialize (Hq p1); destruct (test (client_get (assembled s)) p1) as [r q]
  end.
  destruct Hq as (Hh & Hc & _ & _ & Ho). simpl in *.
  rewrite Hh, Hc, Ho, <- app_assoc. auto.
Qed.

(** X3. Under the fixture [client], a test that makes any calls of
    [client.get] prints exactly "Starting up..." before and
    "Shutting down..." after, also when a call raises; the requests print
    nothing, and the heap and the cache are as before. *)
Theorem lifespan_brackets_test p0 app p1 calls p :
  main p0 = (inl app, p1) ->
  stdout (snd (client app (fun get => get_all get calls) p))
    = stdout p ++ ["Starting up..."; "Shutting down..."] /\
  heap (snd (client app (fun get => get_all get calls) p)) = heap p /\
  cache (snd (client app (fun get => get_all get calls) p)) = cache p.
Proof.
  intros Hmain.
  destruct (main_ok _ _ _ Hmain) as (a & s & _ & _ & _ & ->).
  apply client_brackets. apply quiet_get_all.
  intros pth hs. apply quiet_client_get_from.
Qed.

(** ** Settings from the environment *)

(** [Settings()] source by source, then field by field. *)
Lemma build_settings_cases p :
  build_settings p =
    match source_error F_ALLOWED_ORIGINS (environ p) with
    | Some e => inr e
    | None =>
    match source_error F_ALLOWED_ORIGINS (dotenv p) with
    | Some e => inr e
    | None =>
    if has_extra (dotenv p) then inr (ValidationError "extra_forbidden") else
    match source "ALLOWED_ORIGINS" p with
    | None =>
        inl (mkSettings
               (match source "PROJECT_NAME" p with
                | Some v => v | None => "FastAPI App" end)
               (match source "VERSION" p with
                | Some v => v | None => "1.0.0" end)
               (match source "DESCRIPTION" p with
                | Some v => v
                | None => "FastAPI application with best practices" end)
               ["http://localhost:3000"])
    | Some raw =>
        match decode_list raw with
        | Some origins =>
            inl (mkSettings
                   (match source "PROJECT_NAME" p with
                    | Some v => v | None => "FastAPI App" end)
                   (match source "VERSION" p with
                    | Some v => v | None => "1.0.0" end)
                   (match source "DESCRIPTION" p with
                    | Some v => v
                    | None => "FastAPI application with best practices" end)
                   origins)
        | None => inr (SettingsError "ALLOWED_ORIGINS")
        end
    end
    end end.
Proof.
  unfold build_settings. rewrite !first_error_origins.
  destruct (source_error F_ALLOWED_ORIGINS (environ p)); [reflexivity |].
  destruct (source_error F_ALLOWED_ORIGINS (dotenv p)); [reflexivity |].
  destruct (has_extra (dotenv p)); [reflexivity |].
  unfold field_value. simpl.
  destruct (source "PROJECT_NAME" p), (source "VERSION" p),
    (source "DESCRIPTION" p), (source "ALLOWED_ORIGINS" p) as [raw |];
    try destruct (decode_list raw); reflexivity.
Qed.

(** X4. What the environment (or the [.env] file) gives for PROJECT_NAME,
    VERSION and DESCRIPTION becomes, text for text, the title, version and
    description of the application, and the decoded ALLOWED_ORIGINS becomes
    the allowed origins of its CORS policy; a field without a source shows
    its default. *)
Theorem environment_reaches_application p app q :
  cache p = None ->
  main p = (inl app, q) ->
  title app = match source "PROJECT_NAME" p with
              | Some v => v | None => "FastAPI App" end /\
  version app = match source "VERSION" p with
                | Some v => v | None => "1.0.0" end /\
  description app = match source "DESCRIPTION" p with
                    | Some v => v
                    | None => "FastAPI application with best practices" end /\
  exists origins,
    user_middleware app = [MwCORS (mkCORS origins true ["*"] ["*"])] /\
    match source "ALLOWED_ORIGINS" p with
    | Some raw => decode_list raw = Some origins
    | None => origins = ["http://localhost:3000"]
    end.
Proof.
  intros Hc Hmain.
  destruct (main_ok _ _ _ Hmain) as (a & s & Hg & _ & _ & ->).
  destruct (get_settings_ok _ _ _ Hg) as (_ & [[Hsome _] | (_ & s' & Hb & Hs')] & _);
    [congruence |].
  pose proof (main_starts p s' Hc Hb) as Hm. rewrite Hm in Hmain.
  inversion Hmain as [[Ht Hv Hd Ho Hq]]. clear Hmain Hm. simpl.
  rewrite build_settings_cases in Hb.
  destruct (source_error F_ALLOWED_ORIGINS (environ p)); [discriminate |].
  destruct (source_error F_ALLOWED_ORIGINS (dotenv p)); [discriminate |].
  destruct (has_extra (dotenv p)); [discriminate |].
  destruct (source "ALLOWED_ORIGINS" p) as [raw |].
  - destruct (decode_list raw) as [origins |] eqn:Hdec; [| discriminate].
    inversion Hb; subst s'. simpl in Ht, Hv, Hd, Ho.
    repeat split; try congruence. exists origins. split; congruence.
  - inversion Hb; subst s'. simpl in Ht, Hv, Hd, Ho.
    repeat split; try congruence. eexists. split; [reflexivity | congruence].
Qed.

(** A source fails on the list field exactly when it holds for it a text,
    other than JSON null, that does not decode. *)
Lemma source_error_origins vars :
  (source_error F_ALLOWED_ORIGINS vars = Some (SettingsError "ALLOWED_ORIGINS") /\
   undecodable_origins vars) \/
  (source_error F_ALLOWED_ORIGINS vars = None /\ ~ undecodable_origins vars).
Proof.
  unfold source_error, undecodable_origins, held. simpl.
  change (complex_field "ALLOWED_ORIGINS") with true. simpl.
  destruct (vars !! "ALLOWED_ORIGINS") as [raw |] eqn:Hv.
  - destruct (is_json_null raw) eqn:Hn.
    + right. split; [reflexivity |].
      intros (raw' & Hr & Hn' & _). inversion Hr; subst. congruence.
    + destruct (decode_list raw) eqn:Hd.
      * right. split; [reflexivity |].
        intros (raw' & Hr & _ & Hd'). inversion Hr; subst. congruence.
      * left. split; [reflexivity |]. eauto.
  - right. split; [reflexivity |]. intros (raw' & Hr & _). discriminate.
Qed.

Lemma undecodable_origins_empty : ~ undecodable_origins ∅.
Proof. intros (raw & Hr & _). now rewrite lookup_empty in Hr. Qed.

(** The entries of the [.env] file that no field claims. *)
Lemma has_extra_iff vars : has_extra vars = true <-> unclaimed_entry vars.
Proof.
  unfold has_extra, unclaimed_entry. rewrite existsb_exists. split.
  - intros ([name value] & Hin & He).
    apply list_elem_of_In, elem_of_map_to_list in Hin.
    unfold extra_entry in He. simpl in He.
    apply andb_true_iff in He. destruct He as [Hv Hc].
    apply negb_true_iff in Hv, Hc. apply String.eqb_neq in Hv.
    exists name, value. auto.
  - intros (name & value & Hl & Hv & Hc).
    exists (name, value). split.
    + now apply list_elem_of_In, elem_of_map_to_list.
    + unfold extra_entry. simpl. apply String.eqb_neq in Hv.
      now rewrite Hv, Hc.
Qed.

(** The four ways [Settings()] can go. *)
Lemma build_settings_outcome p :
  (undecodable_origins (environ p) /\
   build_settings p = inr (SettingsError "ALLOWED_ORIGINS")) \/
  (~ undecodable_origins (environ p) /\ undecodable_origins (dotenv p) /\
   build_settings p = inr (SettingsError "ALLOWED_ORIGINS")) \/
  (~ undecodable_origins (environ p) /\ ~ undecodable_origins (dotenv p) /\
   unclaimed_entry (dotenv p) /\
   build_settings p = inr (ValidationError "extra_forbidden")) \/
  (~ undecodable_origins (environ p) /\ ~ undecodable_origins (dotenv p) /\
   ~ unclaimed_entry (dotenv p) /\ exists s, build_settings p = inl s).
Proof.
  rewrite <- has_extra_iff. rewrite build_settings_cases.
  destruct (source_error_origins (environ p)) as [[He Hbe] | [He Hbe]];
    rewrite He; [left; auto |].
  destruct (source_error_origins (dotenv p)) as [[Hd Hbd] | [Hd Hbd]];
    rewrite Hd; [right; left; auto |].
  destruct (has_extra (dotenv p)) eqn:Hx; [right; right; left; auto |].
  right. right. right.
  split; [exact Hbe |]. split; [exact Hbd |]. split; [discriminate |].
  unfold source_error in He, Hd. simpl in He, Hd. unfold source.
  destruct (held "ALLOWED_ORIGINS" (environ p)) as [r |].
  - destruct (decode_list r); [eauto | discriminate].
  - destruct (held "ALLOWED_ORIGINS" (dotenv p)) as [r |]; [| eauto].
    destruct (decode_list r); [eauto | discriminate].
Qed.

(** X5. With an empty [.env] file, [Settings()] fails exactly when the
    environment holds for ALLOWED_ORIGINS a text, other than JSON null,
    that does not decode to a list; the error names that field. No value of
    PROJECT_NAME, VERSION or DESCRIPTION makes it fail. *)
Theorem settings_fail_only_on_origins p :
  dotenv p = ∅ ->
  ((exists e, build_settings p = inr e) <->
   exists raw, environ p !! "ALLOWED_ORIGINS" = Some raw /\
               is_json_null raw = false /\ decode_list raw = None) /\
  ((exists e q, Settings_init p = (inr e, q)) <->
   exists raw, environ p !! "ALLOWED_ORIGINS" = Some raw /\
               is_json_null raw = false /\ decode_list raw = None) /\
  forall e, build_settings p = inr e -> e = SettingsError "ALLOWED_ORIGINS".
Proof.
  intros Hfile.
  assert (Hnx : ~ unclaimed_entry (dotenv p)).
  { rewrite Hfile. intros (name & value & Hl & _).
    now rewrite lookup_empty in Hl. }
  assert (Hnd : ~ undecodable_origins (dotenv p)).
  { rewrite Hfile. apply undecodable_origins_empty. }
  assert (Hiff : (exists e, build_settings p = inr e) <->
                 undecodable_origins (environ p)).
  { destruct (build_settings_outcome p)
      as [(Hu & Hb) | [(_ & Hu & _) | [(_ & _ & Hu & _) | (Hu & _ & _ & s & Hb)]]];
      try tauto.
    - split; eauto.
    - split; [intros [e He]; congruence | tauto]. }
  split; [exact Hiff |]. split.
  - fold (undecodable_origins (environ p)). rewrite <- Hiff.
    unfold Settings_init, bind, log. settings_unchanged p.
    destruct (build_settings p) as [s | e]; split.
    + intros (e & q & H). discriminate.
    + intros [e He]. discriminate.
    + intros _. eauto.
    + intros _. eauto.
  - intros e He.
    destruct (build_settings_outcome p)
      as [(_ & Hb) | [(_ & Hu & _) | [(_ & _ & Hu & _) | (_ & _ & _ & s & Hb)]]];
      try tauto; congruence.
Qed.


(** Setting ALLOWED_ORIGINS in the environment to a text that decodes,
    under an empty [.env] file. *)
Lemma build_settings_origins_set p raw origins :
  dotenv p = ∅ -> is_json_null raw = false -> decode_list raw = Some origins ->
  exists s,
    build_settings (setenv "ALLOWED_ORIGINS" raw p) = inl s /\
    ALLOWED_ORIGINS s = origins.
Proof.
  intros Hfile Hn Hd.
  assert (Hh : held "ALLOWED_ORIGINS" (<["ALLOWED_ORIGINS" := raw]> (environ p))
               = Some raw).
  { unfold held. rewrite lookup_insert_eq.
    change (complex_field "ALLOWED_ORIGINS") with true. simpl. now rewrite Hn. }
  rewrite build_settings_cases.
  unfold source_error, source, setenv. simpl.
  rewrite Hfile, Hh, Hd, !held_empty, has_extra_empty.
  eexists. split; reflexivity.
Qed.

(** X6. A failed construction is not cached: after a first
    [get_settings()] that raised, the cache is still empty, and once the
    environment and the [.env] file are such that [Settings()] succeeds,
    the next call runs [Settings()] again and caches the new object. With
    an empty [.env] file it is enough to set ALLOWED_ORIGINS in the
    environment to a text, other than JSON null, that decodes: the cached
    object then has the decoded origins. *)
Theorem failed_construction_is_not_cached p e q :
  cache p = None ->
  get_settings p = (inr e, q) ->
  cache q = None /\ heap q = heap p /\
  (forall env file s,
     build_settings (with_sources env file q) = inl s ->
     exists a q',
       get_settings (with_sources env file q) = (inl a, q') /\
       cache q' = Some a /\ heap q' !! a = Some s /\
       init_count (trace q') = (2 + init_count (trace p))%nat) /\
  (forall raw origins,
     dotenv p = ∅ -> is_json_null raw = false ->
     decode_list raw = Some origins ->
     exists a q' s,
       get_settings (setenv "ALLOWED_ORIGINS" raw q) = (inl a, q') /\
       cache q' = Some a /\ heap q' !! a = Some s /\
       ALLOWED_ORIGINS s = origins /\
       init_count (trace q') = (2 + init_count (trace p))%nat).
Proof.
  intros Hc Hg.
  destruct (build_settings p) as [s0 | e0] eqn:Hb.
  { rewrite (get_settings_miss p s0 Hc Hb) in Hg. discriminate. }
  rewrite (get_settings_fail p e0 Hc Hb) in Hg. inversion Hg; subst e0 q.
  clear Hg.
  split; [reflexivity |]. split; [reflexivity |].
  assert (Hnext : forall q0 s,
            cache q0 = None -> heap q0 = heap p ->
            trace q0 = trace p ++ [EvSettingsInit] ->
            build_settings q0 = inl s ->
            exists a q',
              get_settings q0 = (inl a, q') /\
              cache q' = Some a /\ heap q' !! a = Some s /\
              init_count (trace q') = (2 + init_count (trace p))%nat).
  { intros q0 s Hc0 Hh0 Ht0 Hb0.
    rewrite (get_settings_miss q0 s Hc0 Hb0).
    eexists. eexists.
    split; [reflexivity |]. split; [reflexivity |].
    split; [simpl; apply list_lookup_middle; reflexivity |].
    simpl. rewrite Ht0, !init_count_app. unfold init_count at 2 3. simpl. lia. }
  split.
  - intros env file s Hs. now apply Hnext.
  - intros raw origins Hfile Hn Hd.
    match goal with |- context [setenv _ _ ?q0] => set (q := q0) end.
    destruct (build_settings_origins_set q raw origins Hfile Hn Hd)
      as (s & Hs & Ho).
    destruct (Hnext (setenv "ALLOWED_ORIGINS" raw q) s) as (a & q' & H1 & H2 & H3 & H4);
      [reflexivity | reflexivity | reflexivity | exact Hs |].
    exists a, q', s. auto.
Qed.

(** ** Methods other than GET *)

Lemma routed_other_method s m pth h p :
  m <> "GET" ->
  pth = "/api/v1/health" \/ pth = "/api/v1/protected" ->
  routed (assembled s) (mkRequest m pth h) p =
    (inl (JSONResponse 405 (JDict [("detail", JStr "Method Not Allowed")])
            [("Allow", "GET")]), p).
Proof.
  intros Hm Hp. apply String.eqb_neq in Hm.
  unfold routed, router_call, resolve, exception_middleware.
  destruct Hp as [-> | ->];
    cbn -[String.eqb]; unfold matches; cbn -[String.eqb];
    rewrite Hm; reflexivity.
Qed.

(** X7. The two routes are GET-only: a request with any other method to
    /api/v1/health or /api/v1/protected that is not a CORS preflight is
    answered 405 with [Allow: GET]; neither the handler nor the resolver
    runs, and the process is left as it was. *)
Theorem other_methods_not_allowed p0 app p1 req p :
  main p0 = (inl app, p1) ->
  method req <> "GET" ->
  path req = "/api/v1/health" \/ path req = "/api/v1/protected" ->
  is_preflight req = false ->
  exists resp,
    app_call app req p = (inl resp, p) /\
    status_code resp = 405 /\
    body resp = JSONBody (JDict [("detail", JStr "Method Not Allowed")]) /\
    get_header "Allow" (headers resp) = Some "GET".
Proof.
  intros Hmain Hm Hp Hpre.
  destruct (main_ok _ _ _ Hmain) as (a & s & _ & _ & _ & ->).
  destruct (app_call_cases s req p)
    as [(Hpre' & _) | (_ & r0 & resp & q & Hr & Hc & (Hs & Hb & Hh) & _)];
    [congruence |].
  destruct req as [m pth h]. simpl in Hm, Hp.
  rewrite (routed_other_method s m pth h p Hm Hp) in Hr.
  inversion Hr; subst r0 q. exists resp.
  split; [exact Hc |]. split; [exact Hs |]. split; [exact Hb |].
  now rewrite Hh.
Qed.

(** ** The CORS headers of an answer *)

Lemma get_header_set_same k k' v h :
  lower k' = lower k -> get_header k (set_header k' v h) = Some v.
Proof.
  intros Heq. induction h as [| [e w] h IH]; simpl.
  - rewrite Heq, String.eqb_refl. reflexivity.
  - destruct (String.eqb (lower e) (lower k')) eqn:He; simpl.
    + apply String.eqb_eq in He. rewrite He, Heq, String.eqb_refl. reflexivity.
    + rewrite <- Heq, He. exact IH.
Qed.

(** Under a policy without the wildcard origin and with credentials
    allowed, the answer to a request from [origin] names that origin when
    it is listed, and otherwise leaves the header as the application set
    it. *)
Lemma simple_response_origin origins req origin resp :
  existsb (String.eqb "*") origins = false ->
  get_header "Access-Control-Allow-Credentials"
    (headers (simple_response (mkCORS origins true ["*"] ["*"]) req origin resp))
    = Some "true" /\
  get_header "Access-Control-Allow-Origin"
    (headers (simple_response (mkCORS origins true ["*"] ["*"]) req origin resp))
    = if existsb (String.eqb origin) origins then Some origin
      else get_header "Access-Control-Allow-Origin" (headers resp).
Proof.
  intros Hstar.
  unfold simple_response, simple_headers, is_allowed_origin, allow_all_origins.
  simpl allow_origins. simpl allow_credentials. rewrite Hstar.
  cbn [app update_headers fold_left fst snd andb orb negb].
  destruct (existsb (String.eqb origin) origins); cbn [headers].
  - unfold allow_explicit_origin, add_vary_origin.
    destruct (get_header "Vary" _); split;
      rewrite ?get_header_set_other by reflexivity;
      apply get_header_set_same; reflexivity.
  - split; [apply get_header_set_same; reflexivity |].
    now rewrite get_header_set_other by reflexivity.
Qed.

(** What the router answers on the two API paths carries no
    [Access-Control-Allow-Origin] header of its own. *)
Lemma routed_api_no_origin_header s req p :
  path req = "/api/v1/health" \/ path req = "/api/v1/protected" ->
  exists resp q,
    routed (assembled s) req p = (inl resp, q) /\
    get_header "Access-Control-Allow-Origin" (headers resp) = None.
Proof.
  intros Hp. destruct req as [m pth h]. simpl in Hp.
  destruct (String.eqb_spec m "GET") as [-> | Hm].
  - destruct Hp as [-> | ->].
    + rewrite routed_health. eauto.
    + rewrite routed_protected.
      unfold exception_middleware, run_endpoint, bind.
      destruct (get_current_user _ p) as [[u | e] q0] eqn:Hu.
      * eexists. eexists. split; reflexivity.
      * destruct (get_current_user_fails _ _ _ _ Hu) as (-> & d & ->).
        eexists. eexists. split; reflexivity.
  - rewrite (routed_other_method s m pth h p Hm Hp). eauto.
Qed.

(** X8. When ALLOWED_ORIGINS has no wildcard, the answer to a request to
    an API path that carries an [Origin] (and is no preflight) allows
    credentials, and names the origin in [Access-Control-Allow-Origin]
    exactly when the origin is one of ALLOWED_ORIGINS; for any other origin
    the header is absent. *)
Theorem cors_reflects_allowed_origins p0 app p1 req p origin :
  main p0 = (inl app, p1) ->
  exists a s,
    cache p1 = Some a /\ heap p1 !! a = Some s /\
    (existsb (String.eqb "*") (ALLOWED_ORIGINS s) = false ->
     path req = "/api/v1/health" \/ path req = "/api/v1/protected" ->
     get_header "origin" (req_headers req) = Some origin ->
     is_preflight req = false ->
     exists resp q,
       app_call app req p = (inl resp, q) /\
       get_header "Access-Control-Allow-Credentials" (headers resp)
         = Some "true" /\
       get_header "Access-Control-Allow-Origin" (headers resp)
         = if existsb (String.eqb origin) (ALLOWED_ORIGINS s)
           then Some origin else None).
Proof.
  intros Hmain.
  destruct (main_ok _ _ _ Hmain) as (a & s & _ & Hc & Hs & ->).
  exists a, s. split; [exact Hc |]. split; [exact Hs |].
  intros Hstar Hp Ho Hpre.
  destruct (app_call_cases s req p)
    as [(Hpre' & _) | (_ & r0 & resp & q & Hr & Hcall & _ & _ & Hsimple & _)];
    [congruence |].
  destruct (routed_api_no_origin_header s req p Hp) as (r0' & q' & Hr' & Hnone).
  rewrite Hr in Hr'. inversion Hr'; subst r0' q'.
  exists resp, q. split; [exact Hcall |].
  rewrite (Hsimple origin Ho).
  destruct (simple_response_origin (ALLOWED_ORIGINS s) req origin r0 Hstar)
    as [Hcred Horigin].
  split; [exact Hcred |]. now rewrite Horigin, Hnone.
Qed.

(** ** Paths without a route *)

Lemma no_route_no_match rs m pth :
  served_path rs pth = false ->
  find (fun r => is_full (matches r m pth)) rs = None /\
  find (fun r => is_partial (matches r m pth)) rs = None /\
  existsb (fun r => is_some_match (matches r m pth)) rs = false.
Proof.
  unfold served_path.
  induction rs as [| r rs IH]; intros Hnot; simpl; [auto |].
  simpl in Hnot. apply orb_false_iff in Hnot. destruct Hnot as [Hr Hrs].
  unfold matches at 1 3 5. rewrite Hr. simpl. now apply IH.
Qed.

Lemma router_call_not_found rs req p :
  served_path rs (path req) = false ->
  served_path rs (redirect_path (path req)) = false ->
  router_call rs req p = (inr (HTTPException 404 (JStr "Not Found") []), p).
Proof.
  intros H1 H2. unfold router_call, resolve.
  destruct (no_route_no_match rs (method req) _ H1) as (-> & -> & _).
  destruct (no_route_no_match rs (method req) _ H2) as (_ & _ & ->).
  now rewrite andb_false_r.
Qed.

(** X10. A request whose path no route's pattern lets pass, also with its
    trailing slash added or removed, is answered 404 with the detail
    "Not Found" unless it is a CORS preflight; in particular the two routes
    are not served without the /api/v1 prefix. No endpoint function and no
    resolver runs, and the process is left as it was. A route's pattern
    lets pass the route's path and that path followed by one line feed. *)
Theorem unknown_path_not_found p0 app p1 req p :
  main p0 = (inl app, p1) ->
  served_path (routes app) (path req) = false ->
  served_path (routes app) (redirect_path (path req)) = false ->
  is_preflight req = false ->
  (forall pth, served_path (routes app) pth = true <->
               exists r, In r (routes app) /\ at_path (route_path r) pth) /\
  served_path (routes app) "/health" = false /\
  served_path (routes app) "/protected" = false /\
  exists resp,
    app_call app req p = (inl resp, p) /\
    status_code resp = 404 /\
    body resp = JSONBody (JDict [("detail", JStr "Not Found")]).
Proof.
  intros Hmain H1 H2 Hpre.
  destruct (main_ok _ _ _ Hmain) as (a & s & _ & _ & _ & ->).
  split.
  { intros pth. unfold served_path. rewrite existsb_exists.
    split; intros (r & Hin & Hr); exists r; (split; [exact Hin |]);
      now apply path_matches_iff. }
  split; [reflexivity |]. split; [reflexivity |].
  destruct (app_call_cases s req p)
    as [(Hpre' & _) | (_ & r0 & resp & q & Hr & Hc & (Hs & Hb & _) & _)];
    [congruence |].
  unfold routed, exception_middleware in Hr.
  rewrite (router_call_not_found _ req p H1 H2) in Hr.
  inversion Hr; subst r0 q. exists resp. auto.
Qed.

(** ** The wildcard origin *)

Lemma simple_response_wildcard origins req origin resp :
  existsb (String.eqb "*") origins = true ->
  get_header "Access-Control-Allow-Credentials"
    (headers (simple_response (mkCORS origins true ["*"] ["*"]) req origin resp))
    = Some "true" /\
  get_header "Access-Control-Allow-Origin"
    (headers (simple_response (mkCORS origins true ["*"] ["*"]) req origin resp))
    = match get_header "cookie" (req_headers req) with
      | Some _ => Some origin
      | None => Some "*"
      end.
Proof.
  intros Hstar.
  unfold simple_response, simple_headers, is_allowed_origin, allow_all_origins.
  simpl allow_origins. simpl allow_credentials. rewrite Hstar.
  cbn [app update_headers fold_left fst snd andb orb negb].
  destruct (get_header "cookie" (req_headers req)); cbn [headers].
  - unfold allow_explicit_origin, add_vary_origin.
    destruct (get_header "Vary" _); split;
      rewrite ?get_header_set_other by reflexivity;
      apply get_header_set_same; reflexivity.
  - split; rewrite ?get_header_set_other by reflexivity;
      apply get_header_set_same; reflexivity.
Qed.

(** X11. When ALLOWED_ORIGINS contains "*", every request with an [Origin]
    that is no preflight is answered with credentials allowed and with
    [Access-Control-Allow-Origin: *], except that a request carrying a
    cookie gets its own origin back, whatever that origin is. *)
Theorem cors_wildcard_with_credentials p0 app p1 req p origin :
  main p0 = (inl app, p1) ->
  exists a s,
    cache p1 = Some a /\ heap p1 !! a = Some s /\
    (existsb (String.eqb "*") (ALLOWED_ORIGINS s) = true ->
     get_header "origin" (req_headers req) = Some origin ->
     is_preflight req = false ->
     exists resp q,
       app_call app req p = (inl resp, q) /\
       get_header "Access-Control-Allow-Credentials" (headers resp)
         = Some "true" /\
       get_header "Access-Control-Allow-Origin" (headers resp)
         = match get_header "cookie" (req_headers req) with
           | Some _ => Some origin
           | None => Some "*"
           end).
Proof.
  intros Hmain.
  destruct (main_ok _ _ _ Hmain) as (a & s & _ & Hc & Hs & ->).
  exists a, s. split; [exact Hc |]. split; [exact Hs |].
  intros Hstar Ho Hpre.
  destruct (app_call_cases s req p)
    as [(Hpre' & _) | (_ & r0 & resp & q & Hr & Hcall & _ & _ & Hsimple & _)];
    [congruence |].
  exists resp, q. split; [exact Hcall |].
  rewrite (Hsimple origin Ho).
  apply simple_response_wildcard. exact Hstar.
Qed.

(** ** One construction per process *)

Lemma trace_step_init_count req p q :
  trace_step req p q -> init_count (trace q) = init_count (trace p).
Proof.
  intros [H | [(H & _) | (H & _)]]; rewrite H; [reflexivity | |];
    rewrite init_count_app; unfold init_count at 2; simpl; lia.
Qed.

Lemma exec_init_count s o p a :
  cache p = Some a ->
  init_count (trace (exec (assembled s) o p)) = init_count (trace p).
Proof.
  intros Hc. destruct o as [| | req | | env file]; simpl; try reflexivity.
  - now rewrite (get_settings_hit p a Hc).
  - destruct (app_call_cases s req p)
      as [(_ & H) | (_ & r0 & resp & q & _ & H & _ & _ & _ & _ & Ht)];
      rewrite H; simpl; [reflexivity |].
    now apply trace_step_init_count with (req := req).
Qed.

Lemma exec_all_init_count s ops : forall p a,
  cache p = Some a ->
  init_count (trace (exec_all (assembled s) ops p)) = init_count (trace p).
Proof.
  unfold exec_all.
  induction ops as [| o ops IH]; intros p a Hc; simpl; [reflexivity |].
  destruct (exec_keeps s o p a Hc) as [_ Hc']. rewrite Hc in Hc'.
  rewrite (IH _ _ Hc'). now apply exec_init_count with (a := a).
Qed.

(** X12. In a process that started with an empty cache and whose module
    body assembled the application, [Settings()] has run exactly once, and
    no later call of [get_settings], step of the lifespan, request or
    change of the environment makes it run again. *)
Theorem settings_constructed_once p0 app p1 ops :
  cache p0 = None ->
  main p0 = (inl app, p1) ->
  init_count (trace p1) = S (init_count (trace p0)) /\
  init_count (trace (exec_all app ops p1)) = S (init_count (trace p0)).
Proof.
  intros Hc Hmain.
  destruct (main_ok _ _ _ Hmain) as (a & s & Hg & Hc1 & _ & ->).
  assert (H1 : init_count (trace p1) = S (init_count (trace p0))).
  { destruct (build_settings p0) as [s0 | e] eqn:Hb.
    - rewrite (get_settings_miss p0 s0 Hc Hb) in Hg. inversion Hg; subst.
      simpl. rewrite init_count_app. unfold init_count at 2. simpl. lia.
    - rewrite (get_settings_fail p0 e Hc Hb) in Hg. discriminate. }
  split; [exact H1 |].
  now rewrite (exec_all_init_count s ops p1 a Hc1).
Qed.

(** ** The test suite *)

Lemma app_call_no_origin s req p resp q :
  get_header "origin" (req_headers req) = None ->
  routed (assembled s) req p = (inl resp, q) ->
  app_call (assembled s) req p = (inl resp, q).
Proof.
  intros Ho Hr. rewrite app_call_assembled.
  unfold server_error_middleware, cors_call. now rewrite Ho, Hr.
Qed.

(** A call of [client.get] whose first answer is no redirect. *)
Lemma client_get_direct app pth hs p resp q :
  app_call app (mkRequest "GET" pth (update_headers hs testclient_headers)) p
    = (inl resp, q) ->
  redirect_target resp = None ->
  client_get app pth hs p = (inl resp, q).
Proof.
  intros Hc Hr. unfold client_get.
  change 20%nat with (S 19). generalize 19%nat. intros n.
  simpl. unfold bind. now rewrite Hc, Hr.
Qed.

(** The fixture around a test, step by step. *)
Lemma client_runs {A : Type} s (test : (string -> Headers -> M Response) -> M A)
    p r q :
  test (client_get (assembled s)) (snd (print "Starting up..." p)) = (r, q) ->
  client (assembled s) test p = (r, snd (print "Shutting down..." q)).
Proof.
  intros H. unfold client, bind. simpl in *. now rewrite H.
Qed.

Section Suite.

(** The test client has no credential and no origin of its own. *)
Hypothesis testclient_no_authorization :
  get_header "Authorization" testclient_headers = None.
Hypothesis testclient_no_origin :
  get_header "origin" testclient_headers = None.

Lemma credential_headers_origin v :
  get_header "origin" (update_headers [("Authorization", v)] testclient_headers)
    = None.
Proof.
  cbn [update_headers fold_left fst snd].
  now rewrite get_header_set_other by reflexivity.
Qed.

Lemma credential_headers_authorization v :
  get_header "Authorization"
    (update_headers [("Authorization", v)] testclient_headers) = Some v.
Proof.
  cbn [update_headers fold_left fst snd].
  now apply get_header_set_same.
Qed.

Lemma run_test_health_check s p :
  test_health_check (client_get (assembled s)) p
    = (inl true, entered "health_check" p).
Proof.
  unfold test_health_check, bind.
  pose proof (app_call_no_origin s
                (mkRequest "GET" "/api/v1/health"
                   (update_headers [] testclient_headers)) p _ _
                testclient_no_origin (routed_health s _ p)) as Hc.
  rewrite (client_get_direct _ _ _ _ _ _ Hc eq_refl). reflexivity.
Qed.

Lemma run_test_without_token s p :
  test_protected_route_without_token (client_get (assembled s)) p
    = (inl true, p).
Proof.
  unfold test_protected_route_without_token, bind.
  assert (Hr : routed (assembled s)
                 (mkRequest "GET" "/api/v1/protected"
                    (update_headers [] testclient_headers)) p
               = (inl (JSONResponse 401 (JDict [("detail", missing_credential)])
                         [("WWW-Authenticate", "Bearer")]), p)).
  { rewrite routed_protected.
    unfold exception_middleware, run_endpoint, bind.
    rewrite get_current_user_missing by exact testclient_no_authorization.
    reflexivity. }
  pose proof (app_call_no_origin s
                (mkRequest "GET" "/api/v1/protected"
                   (update_headers [] testclient_headers)) p _ _
                testclient_no_origin Hr) as Hc.
  rewrite (client_get_direct _ _ _ _ _ _ Hc eq_refl). reflexivity.
Qed.

(** A request with a credential: the resolver's verdict decides. *)
Lemma protected_with_credential s v p :
  app_call (assembled s)
    (mkRequest "GET" "/api/v1/protected"
       (update_headers [("Authorization", v)] testclient_headers)) p
  = match verify_credential v with
    | inl u =>
        (inl (JSONResponse 200
                (JDict [("message", JStr "This is a protected route");
                        ("user", u)]) []),
         entered "protected_route" p)
    | inr d =>
        (inl (JSONResponse 401 (JDict [("detail", d)])
                [("WWW-Authenticate", "Bearer")]), p)
    end.
Proof.
  assert (Hu : get_current_user
                 (mkRequest "GET" "/api/v1/protected"
                    (update_headers [("Authorization", v)] testclient_headers)) p
               = match verify_credential v with
                 | inl u => (inl u, p)
                 | inr d => (inr (authentication_error d), p)
                 end).
  { unfold get_current_user. cbn [req_headers].
    rewrite credential_headers_authorization.
    destruct (verify_credential v); reflexivity. }
  destruct (verify_credential v) as [u | d];
    (apply app_call_no_origin; [apply credential_headers_origin |]);
    rewrite routed_protected;
    unfold exception_middleware, run_endpoint, bind; rewrite Hu; reflexivity.
Qed.

Lemma run_test_with_valid_token s p :
  exists q,
    test_protected_route_with_valid_token (client_get (assembled s))
      (token_headers test_user) p
    = (inl (accepts "Bearer fake_test_token"), q).
Proof.
  unfold test_protected_route_with_valid_token, token_headers, accepts, bind.
  pose proof (protected_with_credential s "Bearer fake_test_token" p) as Hc.
  destruct (verify_credential "Bearer fake_test_token") as [u | d];
    eexists; rewrite (client_get_direct _ _ _ _ _ _ Hc eq_refl);
    reflexivity.
Qed.

Lemma run_test_with_invalid_token s p :
  exists q,
    test_protected_route_with_invalid_token (client_get (assembled s))
      unauthorized_token_headers p
    = (inl (negb (accepts "Bearer invalid_token")), q).
Proof.
  unfold test_protected_route_with_invalid_token, unauthorized_token_headers,
    accepts, bind.
  pose proof (protected_with_credential s "Bearer invalid_token" p) as Hc.
  destruct (verify_credential "Bearer invalid_token") as [u | d];
    eexists; rewrite (client_get_direct _ _ _ _ _ _ Hc eq_refl);
    reflexivity.
Qed.

(** X9. With a test client that sends no credential and no origin of its
    own, the four tests of test_endpoints.py run to these results, in the
    order of the file: the health check and the request without a token
    pass whatever the resolver does; the test with the fixture's token
    passes exactly when the resolver accepts "Bearer fake_test_token", and
    the test with the invalid token passes exactly when the resolver
    rejects "Bearer invalid_token". *)
Theorem test_suite_results p0 app p1 p :
  main p0 = (inl app, p1) ->
  exists q,
    pytest app p =
      (inl [true; true; accepts "Bearer fake_test_token";
            negb (accepts "Bearer invalid_token")], q).
Proof.
  intros Hmain.
  destruct (main_ok _ _ _ Hmain) as (a & s & _ & _ & _ & ->).
  unfold pytest, bind.
  rewrite (client_runs s _ p _ _ (run_test_health_check s _)).
  rewrite (client_runs s _ _ _ _ (run_test_without_token s _)).
  match goal with |- context [client _ _ ?p3] =>
    destruct (run_test_with_valid_token s (snd (print "Starting up..." p3)))
      as [q3 H3]
  end.
  rewrite (client_runs s _ _ _ _ H3).
  match goal with |- context [client _ _ ?p4] =>
    destruct (run_test_with_invalid_token s (snd (print "Starting up..." p4)))
      as [q4 H4]
  end.
  rewrite (client_runs s _ _ _ _ H4).
  eexists. reflexivity.
Qed.

End Suite.

End Program.

(** * The claims on concrete runs

    Each property is applied to a run of the program with the sample
    collaborators. *)

Lemma sample_verify_identity credential user :
  sample_verify credential = inl user -> user <> JNull.
Proof.
  unfold sample_verify. destruct (String.eqb _ _); intros H; inversion H.
  discriminate.
Qed.

(** C1 on a request without an Authorization header, in a process started
    with an empty environment. *)
Lemma protected_rejects_unauthenticated_witness :
  exists app p1,
    main sample_decode_list sample_docs_page sample_verify sample_missing
         (fresh ∅ ∅) = (inl app, p1) /\
    exists resp q detail,
      app_call sample_preflight app
               (mkRequest "GET" "/api/v1/protected" [("Accept", "*/*")]) p1
        = (inl resp, q) /\
      status_code resp = 401 /\
      body resp = JSONBody (JDict [("detail", detail)]) /\
      get_header "WWW-Authenticate" (headers resp) = Some "Bearer" /\
      q = p1 /\ trace q = trace p1.
Proof.
  eexists. eexists. split; [run |].
  eapply (protected_rejects_unauthenticated
           sample_decode_list sample_preflight sample_docs_page sample_verify
           sample_missing (fresh ∅ ∅));
    [run | run | run | left; run].
Defined.

(** C2 on a request that carries an Origin header. *)
Lemma health_always_healthy_witness :
  exists app p1,
    main sample_decode_list sample_docs_page sample_verify sample_missing
         (fresh ∅ ∅) = (inl app, p1) /\
    exists resp q,
      app_call sample_preflight app
               (mkRequest "GET" "/api/v1/health"
                          [("Origin", "http://localhost:3000")]) p1
        = (inl resp, q) /\
      status_code resp = 200 /\
      body resp = JSONBody (JDict [("status", JStr "healthy")]) /\
      same_store p1 q /\
      forall p', health_check p' = (inl (JDict [("status", JStr "healthy")]), p').
Proof.
  eexists. eexists. split; [run |].
  eapply (health_always_healthy
           sample_decode_list sample_preflight sample_docs_page sample_verify
           sample_missing (fresh ∅ ∅));
    run.
Defined.

(** C3 on a request with the credential the sample resolver accepts. *)
Lemma protected_echoes_user_witness :
  exists app p1,
    main sample_decode_list sample_docs_page sample_verify sample_missing
         (fresh ∅ ∅) = (inl app, p1) /\
    exists resp q,
      app_call sample_preflight app
               (mkRequest "GET" "/api/v1/protected"
                          [("Authorization", "Bearer fake_test_token")]) p1
        = (inl resp, q) /\
      status_code resp = 200 /\
      body resp =
        JSONBody (JDict [("message", JStr "This is a protected route");
                         ("user", JDict [("username", JStr "test_user")])]) /\
      json_get "message"
               (JDict [("message", JStr "This is a protected route");
                       ("user", JDict [("username", JStr "test_user")])])
        = Some (JStr "This is a protected route") /\
      json_get "user"
               (JDict [("message", JStr "This is a protected route");
                       ("user", JDict [("username", JStr "test_user")])])
        = Some (JDict [("username", JStr "test_user")]) /\
      JDict [("username", JStr "test_user")] <> JNull /\
      trace q = trace p1 ++ [EvEndpoint "protected_route"].
Proof.
  eexists. eexists. split; [run |].
  eapply (protected_echoes_user
            sample_decode_list sample_preflight sample_docs_page sample_verify
            sample_missing sample_verify_identity (fresh ∅ ∅));
    run.
Defined.

(** C4 on a process started with an empty environment, whose first call
    allocates the object at address 0. *)
Lemma get_settings_memoized_witness :
  exists p1,
    cache (fresh ∅ ∅) = None /\
    get_settings sample_decode_list (fresh ∅ ∅) = (inl 0%nat, p1) /\
    (exists s, build_settings sample_decode_list (fresh ∅ ∅) = inl s /\
               heap (fresh ∅ ∅) !! 0%nat = None /\
               heap p1 !! 0%nat = Some s /\ cache p1 = Some 0%nat /\
               conftest sample_decode_list sample_docs_page sample_verify
                        sample_missing (fresh ∅ ∅)
                 = (inl (assembled sample_docs_page sample_verify
                                   sample_missing s, 0%nat), p1)) /\
    forall s' ops,
      get_settings sample_decode_list
        (exec_all sample_decode_list sample_preflight
           (assembled sample_docs_page sample_verify sample_missing s') ops p1)
      = (inl 0%nat,
         exec_all sample_decode_list sample_preflight
           (assembled sample_docs_page sample_verify sample_missing s') ops p1) /\
      heap (exec_all sample_decode_list sample_preflight
              (assembled sample_docs_page sample_verify sample_missing s') ops p1)
        !! 0%nat = heap p1 !! 0%nat.
Proof.
  eexists. split; [run |]. split; [run |].
  eapply (get_settings_memoized
           sample_decode_list sample_preflight sample_docs_page sample_verify
           sample_missing (fresh ∅ ∅)); run.
Defined.

(** C5 on an environment that sets [project_name], in lower case, and no
    variable under the name of a field, with an empty [.env] file. *)
Lemma settings_defaults_witness :
  (forall f, In f model_fields ->
             source (field_name f) (fresh (<["project_name" := "Mine"]> ∅) ∅) = None) /\
  has_extra (dotenv (fresh (<["project_name" := "Mine"]> ∅) ∅)) = false /\
  build_settings sample_decode_list (fresh (<["project_name" := "Mine"]> ∅) ∅) =
    inl (mkSettings "FastAPI App" "1.0.0"
           "FastAPI application with best practices" ["http://localhost:3000"]) /\
  (exists a q,
     Settings_init sample_decode_list (fresh (<["project_name" := "Mine"]> ∅) ∅)
       = (inl a, q) /\
     heap q !! a = Some default_settings) /\
  forall name value,
    (forall f, In f model_fields -> field_name f <> name) ->
    build_settings sample_decode_list
      (setenv name value (fresh (<["project_name" := "Mine"]> ∅) ∅))
    = build_settings sample_decode_list (fresh (<["project_name" := "Mine"]> ∅) ∅).
Proof.
  assert (H : forall f, In f model_fields ->
                source (field_name f) (fresh (<["project_name" := "Mine"]> ∅) ∅)
                = None).
  { intros f [<- | [<- | [<- | [<- | []]]]]; run. }
  split; [exact H |]. split; [run |].
  exact (settings_defaults sample_decode_list _ H eq_refl).
Defined.

(** C5 as first stated fails on a [.env] file with an entry that is no
    field: no field has a source there, and [Settings()] raises; so it does
    when the entry is a field's name in another case. *)
Lemma settings_defaults_counterexample :
  map (fun f => source (field_name f) (fresh ∅ (<["FOO" := "bar"]> ∅)))
      model_fields = [None; None; None; None] /\
  build_settings sample_decode_list (fresh ∅ (<["FOO" := "bar"]> ∅))
    = inr (ValidationError "extra_forbidden") /\
  map (fun f => source (field_name f)
                  (fresh ∅ (<["project_name" := "Mine"]> ∅)))
      model_fields = [None; None; None; None] /\
  build_settings sample_decode_list (fresh ∅ (<["project_name" := "Mine"]> ∅))
    = inr (ValidationError "extra_forbidden").
Proof. repeat split; run. Qed.

(** C6 on an environment whose ALLOWED_ORIGINS is a text that the decoder
    rejects. *)
Lemma settings_error_is_fatal_witness :
  cache (fresh (<["ALLOWED_ORIGINS" := "localhost"]> ∅) ∅) = None /\
  In F_ALLOWED_ORIGINS model_fields /\
  source (field_name F_ALLOWED_ORIGINS)
         (fresh (<["ALLOWED_ORIGINS" := "localhost"]> ∅) ∅) = Some "localhost" /\
  coerce sample_decode_list (annotation F_ALLOWED_ORIGINS) "localhost" = None /\
  exists q,
    get_settings sample_decode_list
                 (fresh (<["ALLOWED_ORIGINS" := "localhost"]> ∅) ∅)
      = (inr (SettingsError (field_name F_ALLOWED_ORIGINS)), q) /\
    main sample_decode_list sample_docs_page sample_verify sample_missing
         (fresh (<["ALLOWED_ORIGINS" := "localhost"]> ∅) ∅)
      = (inr (SettingsError (field_name F_ALLOWED_ORIGINS)), q) /\
    conftest sample_decode_list sample_docs_page sample_verify sample_missing
         (fresh (<["ALLOWED_ORIGINS" := "localhost"]> ∅) ∅)
      = (inr (SettingsError (field_name F_ALLOWED_ORIGINS)), q) /\
    heap q = heap (fresh (<["ALLOWED_ORIGINS" := "localhost"]> ∅) ∅) /\
    cache q = None /\
    init_count (trace q) =
      S (init_count (trace (fresh (<["ALLOWED_ORIGINS" := "localhost"]> ∅) ∅))).
Proof.
  split; [run |]. split; [simpl; auto 6 |]. split; [run |]. split; [run |].
  apply (settings_error_is_fatal
           sample_decode_list sample_docs_page sample_verify sample_missing
           (fresh (<["ALLOWED_ORIGINS" := "localhost"]> ∅) ∅)
           F_ALLOWED_ORIGINS "localhost");
    [run | simpl; auto 6 | run | run].
Defined.

(** C7 on a process whose environment sets ALLOWED_ORIGINS to the empty
    list. *)
Lemma cors_policy_from_settings_witness :
  exists app p1,
    main sample_decode_list sample_docs_page sample_verify sample_missing
         (fresh (<["ALLOWED_ORIGINS" := "[]"]> ∅) ∅) = (inl app, p1) /\
    exists a s,
      cache p1 = Some a /\ heap p1 !! a = Some s /\
      user_middleware app =
        [MwCORS (mkCORS (ALLOWED_ORIGINS s) true ["*"] ["*"])] /\
      forall req,
        app_call sample_preflight app req =
          server_error_middleware
            (cors_call sample_preflight
                       (mkCORS (ALLOWED_ORIGINS s) true ["*"] ["*"])
                       (routed app) req).
Proof.
  eexists. eexists. split; [run |].
  eapply (cors_policy_from_settings
            sample_decode_list sample_preflight sample_docs_page sample_verify
            sample_missing (fresh (<["ALLOWED_ORIGINS" := "[]"]> ∅) ∅)).
  run.
Defined.

(** C8 on a process started with an empty environment. *)
Lemma settings_immutable_witness :
  exists app p1,
    main sample_decode_list sample_docs_page sample_verify sample_missing
         (fresh ∅ ∅) = (inl app, p1) /\
    exists a s,
      cache p1 = Some a /\ heap p1 !! a = Some s /\
      (cache (fresh ∅ ∅) = None ->
       build_settings sample_decode_list (fresh ∅ ∅) = inl s) /\
      (forall b s0, heap (fresh ∅ ∅) !! b = Some s0 -> heap p1 !! b = Some s0) /\
      title app = PROJECT_NAME s /\ version app = VERSION s /\
      description app = DESCRIPTION s /\
      user_middleware app =
        [MwCORS (mkCORS (ALLOWED_ORIGINS s) true ["*"] ["*"])] /\
      forall ops,
        heap (exec_all sample_decode_list sample_preflight app ops p1) = heap p1 /\
        cache (exec_all sample_decode_list sample_preflight app ops p1) = Some a /\
        forall (A : Type) (field : Settings -> A),
          getattr a field (exec_all sample_decode_list sample_preflight app ops p1)
            = (inl (field s),
               exec_all sample_decode_list sample_preflight app ops p1).
Proof.
  eexists. eexists. split; [run |].
  eapply (settings_immutable
            sample_decode_list sample_preflight sample_docs_page sample_verify
            sample_missing (fresh ∅ ∅)).
  run.
Defined.

(** C9 on a process started with an empty environment. *)
Lemma routes_mounted_under_prefix_witness :
  exists app p1,
    main sample_decode_list sample_docs_page sample_verify sample_missing
         (fresh ∅ ∅) = (inl app, p1) /\
    map route_key (router sample_verify sample_missing) =
      [("/health", ["GET"], "health_check");
       ("/protected", ["GET"], "protected_route")] /\
    map route_key (routes app) =
      [("/openapi.json", ["GET"; "HEAD"], "/openapi.json");
       ("/docs", ["GET"; "HEAD"], "/docs");
       ("/docs/oauth2-redirect", ["GET"; "HEAD"], "/docs/oauth2-redirect");
       ("/redoc", ["GET"; "HEAD"], "/redoc");
       ("/api/v1/health", ["GET"], "health_check");
       ("/api/v1/protected", ["GET"], "protected_route")] /\
    (forall m pth,
      (endpoint_name <$> resolve (routes app) m pth = Some "health_check"
       <-> m = "GET" /\
           (pth = "/api/v1/health" \/
            pth = ("/api/v1/health" ++ newline)%string)) /\
      (endpoint_name <$> resolve (routes app) m pth = Some "protected_route"
       <-> m = "GET" /\
           (pth = "/api/v1/protected" \/
            pth = ("/api/v1/protected" ++ newline)%string))) /\
    forall req p,
      exists resp q,
        app_call sample_preflight app req p = (inl resp, q) /\
        (trace q = trace p ++ [EvEndpoint "health_check"] <->
         method req = "GET" /\
         (path req = "/api/v1/health" \/
          path req = ("/api/v1/health" ++ newline)%string)) /\
        (trace q = trace p ++ [EvEndpoint "protected_route"] <->
         method req = "GET" /\
         (path req = "/api/v1/protected" \/
          path req = ("/api/v1/protected" ++ newline)%string) /\
         exists u, get_current_user sample_verify sample_missing req p
                     = (inl u, p)).
Proof.
  eexists. eexists. split; [run |].
  eapply (routes_mounted_under_prefix
            sample_decode_list sample_preflight sample_docs_page sample_verify
            sample_missing (fresh ∅ ∅)).
  run.
Defined.

(** C9 as first stated fails on a GET of /api/v1/health followed by one
    line feed: the path is not /api/v1/health, and the request is routed to
    [health_check], which runs and answers it. *)
Lemma routes_mounted_under_prefix_counterexample :
  String.eqb ("/api/v1/health" ++ newline) "/api/v1/health" = false /\
  endpoint_name <$>
    resolve (routes (assembled sample_docs_page sample_verify sample_missing
                       default_settings))
            "GET" ("/api/v1/health" ++ newline)
    = Some "health_check" /\
  app_call sample_preflight
           (assembled sample_docs_page sample_verify sample_missing
              default_settings)
           (mkRequest "GET" ("/api/v1/health" ++ newline) [])
           (mkProcess [default_settings] (Some 0%nat) ∅ ∅ [] [EvSettingsInit])
    = (inl (JSONResponse 200 (JDict [("status", JStr "healthy")]) []),
       mkProcess [default_settings] (Some 0%nat) ∅ ∅ []
                 [EvSettingsInit; EvEndpoint "health_check"]).
Proof. repeat split; run. Qed.

(** C10 on two runs that differ in the environment (defaults against a
    renamed project with no allowed origin), in the request headers and in
    the state at the time of the request. *)
Lemma health_noninterference_witness :
  exists app p1 app' p1',
    main sample_decode_list sample_docs_page sample_verify sample_missing
         (fresh ∅ ∅) = (inl app, p1) /\
    main sample_decode_list sample_docs_page sample_verify sample_missing
         (fresh (<["PROJECT_NAME" := "Other"]> (<["ALLOWED_ORIGINS" := "[]"]> ∅)) ∅)
      = (inl app', p1') /\
    exists resp q resp' q',
      app_call sample_preflight app
               (mkRequest "GET" "/api/v1/health" []) p1 = (inl resp, q) /\
      app_call sample_preflight app'
               (mkRequest "GET" "/api/v1/health"
                          [("Origin", "http://elsewhere"); ("Cookie", "k=v")])
               (setenv "VERSION" "2" p1') = (inl resp', q') /\
      body resp = body resp' /\
      body resp = JSONBody (JDict [("status", JStr "healthy")]).
Proof.
  eexists. eexists. eexists. eexists. split; [run |]. split; [run |].
  eapply (health_noninterference
            sample_decode_list sample_preflight sample_docs_page sample_verify
            sample_missing (fresh ∅ ∅) _ _ _ _
            (fresh (<["PROJECT_NAME" := "Other"]> (<["ALLOWED_ORIGINS" := "[]"]> ∅)) ∅));
    run.
Defined.

(** * The further properties on concrete runs *)

(** The application and the state that the module body of app/main.py
    leaves in a process started with an empty environment. *)
Abbreviation sample_app :=
  (assembled sample_docs_page sample_verify sample_missing default_settings)
  (only parsing).
Abbreviation sample_started :=
  (mkProcess [default_settings] (Some 0%nat) ∅ ∅ [] [EvSettingsInit])
  (only parsing).

(** X1 on a POST to the protected path with the credential the sample
    resolver accepts: no endpoint function runs. *)
Lemma protected_route_needs_authentication_witness :
  main sample_decode_list sample_docs_page sample_verify sample_missing
       (fresh ∅ ∅) = (inl sample_app, sample_started) /\
  exists resp q,
    app_call sample_preflight sample_app
             (mkRequest "POST" "/api/v1/protected"
                        [("Authorization", "Bearer fake_test_token")])
             sample_started
      = (inl resp, q) /\
    same_store sample_started q /\
    trace_step sample_verify sample_missing
               (mkRequest "POST" "/api/v1/protected"
                          [("Authorization", "Bearer fake_test_token")])
               sample_started q.
Proof.
  split; [run |].
  apply (protected_route_needs_authentication
           sample_decode_list sample_preflight sample_docs_page sample_verify
           sample_missing (fresh ∅ ∅) sample_app sample_started).
  run.
Defined.

(** X2 on the health check before and after a change of the environment. *)
Lemma answers_do_not_depend_on_state_witness :
  main sample_decode_list sample_docs_page sample_verify sample_missing
       (fresh ∅ ∅) = (inl sample_app, sample_started) /\
  fst (app_call sample_preflight sample_app
         (mkRequest "GET" "/api/v1/health" []) sample_started)
  = fst (app_call sample_preflight sample_app
           (mkRequest "GET" "/api/v1/health" [])
           (setenv "VERSION" "2" sample_started)) /\
  forall ops,
    fst (app_call sample_preflight sample_app
           (mkRequest "GET" "/api/v1/health" [])
           (exec_all sample_decode_list sample_preflight sample_app ops
                     sample_started))
    = fst (app_call sample_preflight sample_app
             (mkRequest "GET" "/api/v1/health" []) sample_started).
Proof.
  split; [run |].
  apply (answers_do_not_depend_on_state
           sample_decode_list sample_preflight sample_docs_page sample_verify
           sample_missing (fresh ∅ ∅) sample_app sample_started).
  run.
Defined.

(** X3 on a test that calls both routes. *)
Lemma lifespan_brackets_test_witness :
  main sample_decode_list sample_docs_page sample_verify sample_missing
       (fresh ∅ ∅) = (inl sample_app, sample_started) /\
  stdout (snd (client sample_preflight sample_client_headers sample_app
                 (fun get => get_all get [("/api/v1/health", []);
                                          ("/api/v1/protected", [])])
                 sample_started))
    = stdout sample_started ++ ["Starting up..."; "Shutting down..."] /\
  heap (snd (client sample_preflight sample_client_headers sample_app
               (fun get => get_all get [("/api/v1/health", []);
                                        ("/api/v1/protected", [])])
               sample_started))
    = heap sample_started /\
  cache (snd (client sample_preflight sample_client_headers sample_app
                (fun get => get_all get [("/api/v1/health", []);
                                         ("/api/v1/protected", [])])
                sample_started))
    = cache sample_started.
Proof.
  split; [run |].
  apply (lifespan_brackets_test
           sample_decode_list sample_preflight sample_docs_page sample_verify
           sample_missing sample_client_headers (fresh ∅ ∅) sample_app
           sample_started).
  run.
Defined.

(** X4 on an environment that names the project and allows no origin. *)
Lemma environment_reaches_application_witness :
  source "PROJECT_NAME"
         (fresh (<["PROJECT_NAME" := "Shop"]> (<["ALLOWED_ORIGINS" := "[]"]> ∅)) ∅)
    = Some "Shop" /\
  source "ALLOWED_ORIGINS"
         (fresh (<["PROJECT_NAME" := "Shop"]> (<["ALLOWED_ORIGINS" := "[]"]> ∅)) ∅)
    = Some "[]" /\
  exists app q,
    main sample_decode_list sample_docs_page sample_verify sample_missing
         (fresh (<["PROJECT_NAME" := "Shop"]> (<["ALLOWED_ORIGINS" := "[]"]> ∅)) ∅)
      = (inl app, q) /\
    title app =
      match source "PROJECT_NAME"
              (fresh (<["PROJECT_NAME" := "Shop"]>
                        (<["ALLOWED_ORIGINS" := "[]"]> ∅)) ∅) with
      | Some v => v
      | None => "FastAPI App"
      end.
Proof.
  split; [run |]. split; [run |].
  exists (assembled sample_docs_page sample_verify sample_missing
            (mkSettings "Shop" "1.0.0"
               "FastAPI application with best practices" [])).
  eexists. split; [run |].
  eapply (environment_reaches_application
            sample_decode_list sample_docs_page sample_verify sample_missing
            (fresh (<["PROJECT_NAME" := "Shop"]> (<["ALLOWED_ORIGINS" := "[]"]> ∅)) ∅));
    run.
Defined.

(** X5 on an environment whose ALLOWED_ORIGINS is a text that does not
    decode, with an empty [.env] file. *)
Lemma settings_fail_only_on_origins_witness :
  dotenv (fresh (<["ALLOWED_ORIGINS" := "localhost"]> ∅) ∅) = ∅ /\
  ((exists e, build_settings sample_decode_list
                (fresh (<["ALLOWED_ORIGINS" := "localhost"]> ∅) ∅) = inr e) <->
   exists raw,
     environ (fresh (<["ALLOWED_ORIGINS" := "localhost"]> ∅) ∅)
       !! "ALLOWED_ORIGINS" = Some raw /\
     is_json_null raw = false /\ sample_decode_list raw = None) /\
  ((exists e q, Settings_init sample_decode_list
                  (fresh (<["ALLOWED_ORIGINS" := "localhost"]> ∅) ∅)
                = (inr e, q)) <->
   exists raw,
     environ (fresh (<["ALLOWED_ORIGINS" := "localhost"]> ∅) ∅)
       !! "ALLOWED_ORIGINS" = Some raw /\
     is_json_null raw = false /\ sample_decode_list raw = None) /\
  forall e,
    build_settings sample_decode_list
      (fresh (<["ALLOWED_ORIGINS" := "localhost"]> ∅) ∅) = inr e ->
    e = SettingsError "ALLOWED_ORIGINS".
Proof.
  split; [reflexivity |].
  exact (settings_fail_only_on_origins sample_decode_list
           (fresh (<["ALLOWED_ORIGINS" := "localhost"]> ∅) ∅) eq_refl).
Defined.


(** X6 on an environment whose ALLOWED_ORIGINS is first a text that does
    not decode and then the empty list. *)
Lemma failed_construction_is_not_cached_witness :
  cache (fresh (<["ALLOWED_ORIGINS" := "localhost"]> ∅) ∅) = None /\
  get_settings sample_decode_list
               (fresh (<["ALLOWED_ORIGINS" := "localhost"]> ∅) ∅)
    = (inr (SettingsError "ALLOWED_ORIGINS"),
       mkProcess [] None (<["ALLOWED_ORIGINS" := "localhost"]> ∅) ∅ []
                 [EvSettingsInit]) /\
  dotenv (fresh (<["ALLOWED_ORIGINS" := "localhost"]> ∅) ∅) = ∅ /\
  is_json_null "[]" = false /\
  sample_decode_list "[]" = Some [] /\
  exists a q' s,
    get_settings sample_decode_list
      (setenv "ALLOWED_ORIGINS" "[]"
         (mkProcess [] None (<["ALLOWED_ORIGINS" := "localhost"]> ∅) ∅ []
                    [EvSettingsInit]))
      = (inl a, q') /\
    cache q' = Some a /\ heap q' !! a = Some s /\
    ALLOWED_ORIGINS s = [] /\
    init_count (trace q') =
      (2 + init_count (trace (fresh (<["ALLOWED_ORIGINS" := "localhost"]> ∅) ∅)))%nat.
Proof.
  assert (Hc : cache (fresh (<["ALLOWED_ORIGINS" := "localhost"]> ∅) ∅) = None)
    by reflexivity.
  assert (Hg : get_settings sample_decode_list
                 (fresh (<["ALLOWED_ORIGINS" := "localhost"]> ∅) ∅)
               = (inr (SettingsError "ALLOWED_ORIGINS"),
                  mkProcess [] None (<["ALLOWED_ORIGINS" := "localhost"]> ∅) ∅ []
                            [EvSettingsInit])) by run.
  split; [exact Hc |]. split; [exact Hg |].
  split; [reflexivity |]. split; [run |]. split; [run |].
  destruct (failed_construction_is_not_cached sample_decode_list
              (fresh (<["ALLOWED_ORIGINS" := "localhost"]> ∅) ∅)
              (SettingsError "ALLOWED_ORIGINS") _ Hc Hg)
    as (_ & _ & _ & Hnext).
  apply (Hnext "[]" []); [reflexivity | run | run].
Defined.

(** X7 on a POST to the health path. *)
Lemma other_methods_not_allowed_witness :
  main sample_decode_list sample_docs_page sample_verify sample_missing
       (fresh ∅ ∅) = (inl sample_app, sample_started) /\
  exists resp,
    app_call sample_preflight sample_app
             (mkRequest "POST" "/api/v1/health" []) sample_started
      = (inl resp, sample_started) /\
    status_code resp = 405 /\
    body resp = JSONBody (JDict [("detail", JStr "Method Not Allowed")]) /\
    get_header "Allow" (headers resp) = Some "GET".
Proof.
  split; [run |].
  apply (other_methods_not_allowed
           sample_decode_list sample_preflight sample_docs_page sample_verify
           sample_missing (fresh ∅ ∅) sample_app sample_started
           (mkRequest "POST" "/api/v1/health" []));
    [run | discriminate | left; reflexivity | reflexivity].
Defined.

(** X8 on the default ALLOWED_ORIGINS and a request from the listed
    origin. *)
Lemma cors_reflects_allowed_origins_witness :
  main sample_decode_list sample_docs_page sample_verify sample_missing
       (fresh ∅ ∅) = (inl sample_app, sample_started) /\
  exists resp q,
    app_call sample_preflight sample_app
             (mkRequest "GET" "/api/v1/health"
                        [("Origin", "http://localhost:3000")]) sample_started
      = (inl resp, q) /\
    get_header "Access-Control-Allow-Credentials" (headers resp) = Some "true" /\
    get_header "Access-Control-Allow-Origin" (headers resp)
      = if existsb (String.eqb "http://localhost:3000")
                   (ALLOWED_ORIGINS default_settings)
        then Some "http://localhost:3000" else None.
Proof.
  assert (Hmain : main sample_decode_list sample_docs_page sample_verify
                       sample_missing (fresh ∅ ∅)
                  = (inl sample_app, sample_started)) by run.
  split; [exact Hmain |].
  destruct (cors_reflects_allowed_origins
              sample_decode_list sample_preflight sample_docs_page sample_verify
              sample_missing (fresh ∅ ∅) sample_app sample_started
              (mkRequest "GET" "/api/v1/health"
                         [("Origin", "http://localhost:3000")])
              sample_started "http://localhost:3000" Hmain)
    as (a & s & Hc & Hs & H).
  simpl in Hc. inversion Hc; subst a.
  simpl in Hs. inversion Hs; subst s.
  apply H; [reflexivity | left; reflexivity | reflexivity | reflexivity].
Defined.

(** X9 with the sample resolver, which accepts the fixture's token and
    rejects the other: the four tests pass. *)
Lemma test_suite_results_witness :
  get_header "Authorization" sample_client_headers = None /\
  get_header "origin" sample_client_headers = None /\
  main sample_decode_list sample_docs_page sample_verify sample_missing
       (fresh ∅ ∅) = (inl sample_app, sample_started) /\
  accepts sample_verify "Bearer fake_test_token" = true /\
  negb (accepts sample_verify "Bearer invalid_token") = true /\
  exists q,
    pytest sample_preflight sample_client_headers sample_app sample_started
      = (inl [true; true; accepts sample_verify "Bearer fake_test_token";
              negb (accepts sample_verify "Bearer invalid_token")], q).
Proof.
  split; [reflexivity |]. split; [reflexivity |]. split; [run |].
  split; [reflexivity |]. split; [reflexivity |].
  apply (test_suite_results
           sample_decode_list sample_preflight sample_docs_page sample_verify
           sample_missing sample_client_headers eq_refl eq_refl (fresh ∅ ∅)
           sample_app sample_started).
  run.
Defined.

(** X10 on the health path without its prefix. *)
Lemma unknown_path_not_found_witness :
  main sample_decode_list sample_docs_page sample_verify sample_missing
       (fresh ∅ ∅) = (inl sample_app, sample_started) /\
  served_path (routes sample_app) "/health" = false /\
  served_path (routes sample_app) (redirect_path "/health") = false /\
  exists resp,
    app_call sample_preflight sample_app (mkRequest "GET" "/health" [])
             sample_started
      = (inl resp, sample_started) /\
    status_code resp = 404 /\
    body resp = JSONBody (JDict [("detail", JStr "Not Found")]).
Proof.
  assert (Hmain : main sample_decode_list sample_docs_page sample_verify
                       sample_missing (fresh ∅ ∅)
                  = (inl sample_app, sample_started)) by run.
  split; [exact Hmain |]. split; [reflexivity |]. split; [reflexivity |].
  destruct (unknown_path_not_found
              sample_decode_list sample_preflight sample_docs_page sample_verify
              sample_missing (fresh ∅ ∅) sample_app sample_started
              (mkRequest "GET" "/health" []) sample_started
              Hmain eq_refl eq_refl eq_refl) as (_ & _ & _ & H).
  exact H.
Defined.

(** X11 on ALLOWED_ORIGINS with the wildcard and a request that carries a
    cookie: the origin, listed nowhere, is named in the answer. *)
Lemma cors_wildcard_with_credentials_witness :
  main sample_decode_wildcard sample_docs_page sample_verify sample_missing
       (fresh (<["ALLOWED_ORIGINS" := "[*]"]> ∅) ∅)
    = (inl (assembled sample_docs_page sample_verify sample_missing
              (mkSettings "FastAPI App" "1.0.0"
                 "FastAPI application with best practices" ["*"])),
       mkProcess [mkSettings "FastAPI App" "1.0.0"
                    "FastAPI application with best practices" ["*"]]
                 (Some 0%nat) (<["ALLOWED_ORIGINS" := "[*]"]> ∅) ∅ []
                 [EvSettingsInit]) /\
  exists resp q,
    app_call sample_preflight
      (assembled sample_docs_page sample_verify sample_missing
         (mkSettings "FastAPI App" "1.0.0"
            "FastAPI application with best practices" ["*"]))
      (mkRequest "GET" "/api/v1/health"
                 [("Origin", "http://elsewhere"); ("Cookie", "k=v")])
      (fresh ∅ ∅)
      = (inl resp, q) /\
    get_header "Access-Control-Allow-Credentials" (headers resp) = Some "true" /\
    get_header "Access-Control-Allow-Origin" (headers resp)
      = match get_header "cookie"
                (req_headers
                   (mkRequest "GET" "/api/v1/health"
                      [("Origin", "http://elsewhere"); ("Cookie", "k=v")])) with
        | Some _ => Some "http://elsewhere"
        | None => Some "*"
        end.
Proof.
  assert (Hmain :
            main sample_decode_wildcard sample_docs_page sample_verify
                 sample_missing (fresh (<["ALLOWED_ORIGINS" := "[*]"]> ∅) ∅)
            = (inl (assembled sample_docs_page sample_verify sample_missing
                      (mkSettings "FastAPI App" "1.0.0"
                         "FastAPI application with best practices" ["*"])),
               mkProcess [mkSettings "FastAPI App" "1.0.0"
                            "FastAPI application with best practices" ["*"]]
                         (Some 0%nat) (<["ALLOWED_ORIGINS" := "[*]"]> ∅) ∅ []
                         [EvSettingsInit])) by run.
  split; [exact Hmain |].
  destruct (cors_wildcard_with_credentials
              sample_decode_wildcard sample_preflight sample_docs_page
              sample_verify sample_missing
              (fresh (<["ALLOWED_ORIGINS" := "[*]"]> ∅) ∅) _ _
              (mkRequest "GET" "/api/v1/health"
                         [("Origin", "http://elsewhere"); ("Cookie", "k=v")])
              (fresh ∅ ∅) "http://elsewhere" Hmain)
    as (a & s & Hc & Hs & H).
  simpl in Hc. inversion Hc; subst a.
  simpl in Hs. inversion Hs; subst s.
  apply H; reflexivity.
Defined.

(** X12 on a process that, after its start, serves a request, calls
    [get_settings] again and sees its environment change. *)
Lemma settings_constructed_once_witness :
  cache (fresh ∅ ∅) = None /\
  main sample_decode_list sample_docs_page sample_verify sample_missing
       (fresh ∅ ∅) = (inl sample_app, sample_started) /\
  init_count (trace sample_started) = S (init_count (trace (fresh ∅ ∅))) /\
  init_count
    (trace (exec_all sample_decode_list sample_preflight sample_app
              [OpStartup; OpRequest (mkRequest "GET" "/api/v1/health" []);
               OpEnvChange (<["ALLOWED_ORIGINS" := "localhost"]> ∅) ∅;
               OpGetSettings; OpShutdown]
              sample_started))
    = S (init_count (trace (fresh ∅ ∅))).
Proof.
  assert (Hmain : main sample_decode_list sample_docs_page sample_verify
                       sample_missing (fresh ∅ ∅)
                  = (inl sample_app, sample_started)) by run.
  split; [reflexivity |]. split; [exact Hmain |].
  exact (settings_constructed_once
           sample_decode_list sample_preflight sample_docs_page sample_verify
           sample_missing (fresh ∅ ∅) sample_app sample_started _
           eq_refl Hmain).
Defined.
